(** * Curation functions for the Harvard College Observatory announcements

    A shallow embedding of [curate.py]: the builders of dataset and datafile
    metadata and the functions that talk to a Dataverse repository, followed
    by the properties the specification states about them.

    Python values are modelled by [scalar] and [pyval], tables by
    [DataFrame], raised exceptions by [outcome], and the outside world (the
    repository answering HTTP requests, the standard output) by [world],
    threaded through the state-and-error monad [M]. *)

From stdpp Require Import ssreflect gmap strings list fin_maps pretty.

Set Warnings "-register-all,-rewrite-rw".

Open Scope string_scope.
Open Scope list_scope.
Open Scope Z_scope.

(** ** Python values *)

(** The values a table cell read from an inventory can hold.  [SNaN] is the
    missing-value float; other floats are not modelled. *)
Inductive scalar :=
| SNone
| SBool (b : bool)
| SInt (z : Z)
| SNaN
| SStr (s : string).

(** Values built by the program or parsed from a JSON body: scalars, lists
    and dicts with string keys. *)
Inductive pyval :=
| PS (s : scalar)
| PList (l : list pyval)
| PDict (d : gmap string pyval).

Coercion PS : scalar >-> pyval.

Abbreviation dict := (gmap string pyval).

Definition pstr (s : string) : pyval := PS (SStr s).

(** [str(v)] on a scalar. *)
Definition py_str (v : scalar) : string :=
  match v with
  | SNone => "None"
  | SBool true => "True"
  | SBool false => "False"
  | SInt z => pretty z
  | SNaN => "nan"
  | SStr s => s
  end.

(** [isinstance(v, str)] on a scalar. *)
Definition is_str (v : scalar) : bool :=
  match v with SStr _ => true | _ => false end.

(** [pd.notna(v)] on a scalar. *)
Definition notna (v : scalar) : bool :=
  match v with SNone | SNaN => false | _ => true end.

(** [v == s] for a string literal [s]. *)
Definition eq_str (v : scalar) (s : string) : bool :=
  match v with SStr t => String.eqb t s | _ => false end.

(** Truth value of a Python value, as tested by [if v] and [not v]. *)
Definition truthy (v : pyval) : bool :=
  match v with
  | PS SNone => false
  | PS (SBool b) => b
  | PS (SInt z) => negb (z =? 0)
  | PS SNaN => true
  | PS (SStr s) => negb (String.eqb s EmptyString)
  | PList l => match l with [] => false | _ => true end
  | PDict d => negb (bool_decide (d = ∅))
  end.

Definition str_truthy (s : string) : bool := negb (String.eqb s EmptyString).

(** ** Strings *)

(** [s.split(sep)] for a non-empty separator: the pieces of [s] between the
    non-overlapping occurrences of [sep], scanned from the left.  [skip]
    counts the characters of a matched separator still to be dropped and
    [cur] is the piece being collected. *)
Fixpoint split_go (sep : string) (skip : nat) (cur : string) (s : string)
  : list string :=
  match s with
  | EmptyString => [cur]
  | String c s' =>
      match skip with
      | S k => split_go sep k cur s'
      | O =>
          if String.prefix sep s
          then cur :: split_go sep (String.length sep - 1) EmptyString s'
          else split_go sep 0 (cur +:+ String c EmptyString) s'
      end
  end.

Definition py_split (s sep : string) : list string := split_go sep 0 EmptyString s.

(** A pandas DataFrame, column by column, with the default positional index.
    Column names are looked up left to right. *)
Record DataFrame (A : Type) := mkDF { df_cols : list (string * list A) }.
Arguments mkDF {A} df_cols.
Arguments df_cols {A} d.

(** ** Objects

    Lists, dicts and tables are objects: they live in a store, are reached
    through references, and can be shared and updated in place.  A [value]
    is a scalar or a reference; an [object] holds values.  The builders are
    embedded twice below: over [pyval], where a container is given by its
    contents, and in [Module Store] over references, where the identity of
    each container they make is kept. *)
Inductive value :=
| VS (s : scalar)
| VRef (l : nat).

Inductive object :=
| OList (items : list value)
| ODict (entries : gmap string value)
| OFrame (table : DataFrame value).

(** ** Exceptions and outcomes *)

Inductive exn :=
| KeyError (k : string)
| IndexError
| TypeError
| AttributeError
| ValueError
| JSONDecodeError
| Unmodelled.

Inductive outcome (A : Type) :=
| Return (a : A)
| Raise (e : exn).
Arguments Return {A} a.
Arguments Raise {A} e.

(** ** The outside world *)

Record Api := mkApi { base_url : string; api_token : string }.

Inductive method := GET | POST | DELETE.

(** What the program sends out: a call of the [requests] library, or the
    listing of a collection through the pyDataverse client. *)
Inductive request :=
| Http (m : method) (url : string) (headers : list (string * string))
       (data : option string)
| GetDataverseContents (a : Api) (collection : string).

(** A response: its status code and its body parsed as JSON ([None] when the
    body is not JSON and [response.json()] raises). *)
Record response := mkResponse { status_code : Z; body : option pyval }.

(** The repository answers a request knowing the requests sent before it;
    [sent] logs the requests in the order they were made, [stdout] the lines
    printed, each kept as its format string and the values put in it, and
    [objects] is the store of the Python objects, a reference being a
    position in it. *)
Record world := mkWorld {
  server : list request → request → response;
  sent : list request;
  stdout : list (string * list pyval);
  objects : list object
}.

(** ** The monad of the program: state passing over [world], with raising *)

Definition M (A : Type) : Type := world → outcome A * world.

Definition ret {A} (a : A) : M A := λ w, (Return a, w).

Definition raise {A} (e : exn) : M A := λ w, (Raise e, w).

Definition bind {A B} (m : M A) (k : A → M B) : M B :=
  λ w, match m w with
       | (Return a, w') => k a w'
       | (Raise e, w') => (Raise e, w')
       end.

Declare Scope py_scope.
Delimit Scope py_scope with py.
Notation "x <- m ;; k" := (bind m (λ x, k))
  (at level 100, m at next level, right associativity) : py_scope.
Notation "m ;; k" := (bind m (λ _, k))
  (at level 100, right associativity) : py_scope.
Open Scope py_scope.

Definition lift {A} (o : outcome A) : M A := λ w, (o, w).

(** [print(fmt.format(args))] *)
Definition print_fmt (fmt : string) (args : list pyval) : M unit :=
  λ w, (Return (), mkWorld (server w) (sent w) (stdout w ++ [(fmt, args)]) (objects w)).

Definition print (line : string) : M unit := print_fmt line [].

(** Sending a request: the server answers from the log, the log grows. *)
Definition send (r : request) : M response :=
  λ w, (Return (server w (sent w) r),
        mkWorld (server w) (sent w ++ [r]) (stdout w) (objects w)).

(** A loop [for x in l: body] over an accumulator. *)
Fixpoint for_each {A S} (l : list A) (body : S → A → M S) (s : S) : M S :=
  match l with
  | [] => ret s
  | x :: l' => s' <- body s x ;; for_each l' body s'
  end.

(** ** Tables *)

(** A row seen as a pandas Series: the cells labelled by their columns. *)
Abbreviation Series A := (list (string * A)).

Definition columns {A} (df : DataFrame A) : list string := (df_cols df).*1.

Definition nrows {A} (df : DataFrame A) : nat :=
  match df_cols df with
  | [] => 0%nat
  | (_, cells) :: _ => length cells
  end.

(** [df.empty]: no column or no row. *)
Definition df_empty {A} (df : DataFrame A) : bool :=
  match nrows df with O => true | _ => false end.

(** Every column has as many cells as the table has rows. *)
Definition rectangular {A} (df : DataFrame A) : bool :=
  forallb (λ c, Nat.eqb (length c.2) (nrows df)) (df_cols df).

Fixpoint assoc {A} (k : string) (l : list (string * A)) : option A :=
  match l with
  | [] => None
  | (k', a) :: l' => if String.eqb k' k then Some a else assoc k l'
  end.

Definition has_column {A} (df : DataFrame A) (c : string) : bool :=
  bool_decide (c ∈ columns df).

(** [df.at[i, c]] where [i] is the label of the [i]-th row. *)
Definition df_at {A} (df : DataFrame A) (i : nat) (c : string) : M A :=
  match assoc c (df_cols df) with
  | None => raise (KeyError c)
  | Some cells =>
      match cells !! i with
      | Some v => ret v
      | None => raise (KeyError (pretty i))
      end
  end.

(** The cells of row [i] that exist, labelled by column. *)
Definition row_at {A} (df : DataFrame A) (i : nat) : Series A :=
  omap (λ c, pair c.1 <$> (c.2 !! i)) (df_cols df).

(** [df.iterrows()]: the rows from top to bottom. *)
Definition iterrows {A} (df : DataFrame A) : list (Series A) :=
  row_at df <$> seq 0 (nrows df).

(** [row[c]] on a Series. *)
Definition row_item {A} (row : Series A) (c : string) : M A :=
  match assoc c row with
  | Some v => ret v
  | None => raise (KeyError c)
  end.

(** [pd.DataFrame()] *)
Definition empty_frame {A} : DataFrame A := mkDF [].

(** [pd.DataFrame({c1: l1, ...})]: the lists must have one length. *)
Definition frame_of_dict {A} (cols : list (string * list A)) : M (DataFrame A) :=
  if rectangular (mkDF cols) then ret (mkDF cols) else raise ValueError.

(** [a + b] where [a] is a string. *)
Definition str_add (a : string) (b : pyval) : M string :=
  match b with
  | PS (SStr s) => ret (a +:+ s)
  | _ => raise TypeError
  end.

(** ** [create_dataset_metadata] *)

Definition required_fields : list string :=
  ["series_name"; "volume_title"; "contributor"; "subjects";
   "card_date_year"; "url"].

(** [v.split(';') if isinstance(v, str) else []] *)
Definition split_if_str (v : scalar) : list string :=
  match v with
  | SStr s => py_split s ";"
  | _ => []
  end.

Definition keyword_entry (kw : string) : pyval :=
  PDict (<["keywordValue" := pstr kw]>
        (<["keywordVocabulary" := pstr "LCSH"]>
        (<["keywordVocabularyURI" :=
             pstr "https://www.loc.gov/aba/cataloging/subject/"]> ∅))).

Definition topic_entry (top : string) : pyval :=
  PDict (<["topicClassValue" := pstr top]> ∅).

Definition create_dataset_metadata
    (author affiliation contact email series_name : string)
    (series_inventory : DataFrame scalar) : M dict :=
  (* Validate parameters *)
  if negb (str_truthy author) || negb (str_truthy affiliation)
     || negb (str_truthy contact) || negb (str_truthy email)
     || negb (str_truthy series_name) || df_empty series_inventory
  then
    print "Error: One or more invalid parameter values" ;;
    ret ∅
  else
  (* Check the inventory for required fields *)
  match find (λ field, negb (has_column series_inventory field))
             required_fields with
  | Some field =>
      print_fmt "Error: Missing required field {} in inventory" [pstr field] ;;
      ret ∅
  | None =>
  (* the first file in the inventory *)
  let index := 0%nat in
  dataset_title <- df_at series_inventory index "series_name" ;;
  volume_title <- df_at series_inventory index "volume_title" ;;
  card_number <- df_at series_inventory index "card_number" ;;
  contributor <- df_at series_inventory index "contributor" ;;
  all_observations <- df_at series_inventory index "all_observations" ;;
  collection_date_year <- df_at series_inventory index "card_date_year" ;;
  collection_date_month <- df_at series_inventory index "card_date_month" ;;
  collection_date_day <- df_at series_inventory index "card_date_day" ;;
  let collection_date :=
    py_str collection_date_year +:+ "-" +:+ py_str collection_date_month
    +:+ "-" +:+ py_str collection_date_day in
  (* keywords *)
  keyword_str <- df_at series_inventory index "subjects" ;;
  let keywords := split_if_str keyword_str in
  let kws := keyword_entry <$> keywords in
  (* topic classes *)
  topic_class_str <- df_at series_inventory index "topic_class" ;;
  let topics := split_if_str topic_class_str in
  let tps := topic_entry <$> topics in
  (* objects *)
  objects_str <- df_at series_inventory index "all_observations" ;;
  let objects := split_if_str objects_str in
  let obs := pstr <$> objects in
  (* description *)
  let description :=
    py_str dataset_title
    +:+ " is a series of tables and text files associated with HCO Announcement Card number: "
    +:+ py_str card_number +:+ ". Compiled by: " +:+ py_str contributor
    +:+ ". Objects observed include " +:+ py_str all_observations +:+ "." in
  (* other metadata *)
  let subjects := "Astronomy and Astrophysics" in
  url <- df_at series_inventory index "url" ;;
  let data_source := [PS url] in
  let astro_facility := [pstr "Harvard Bureau of Astronomical Telegrams"] in
  let astro_type := "Observation" in
  ret (<["title" := PS dataset_title]>
      (<["author" := PList [PDict (<["authorName" := pstr author]>
                                  (<["authorAffiliation" := pstr affiliation]> ∅))]]>
      (<["description" := PList [PDict (<["dsDescriptionValue" := pstr description]> ∅)]]>
      (<["contact" := PList [PDict (<["datasetContactName" := pstr contact]>
                                   (<["datasetContactAffiliation" := pstr affiliation]>
                                   (<["datasetContactEmail" := pstr email]> ∅)))]]>
      (<["subject" := PList [pstr subjects]]>
      (<["license" := pstr "CC0 1.0"]>
      (<["keywords" := PList kws]>
      (<["topic_classification" := PList tps]>
      (<["data_source" := PList data_source]>
      (<["creation_date" := pstr collection_date]>
      (<["astroObject" := PList obs]>
      (<["astroFacility" := PList astro_facility]>
      (<["astroType" := pstr astro_type]> ∅)))))))))))))
  end.

(** ** [create_datafile_metadata] *)

(** The five lists the loop fills, one entry per row. *)
Record file_lists := mkLists {
  all_filenames : list scalar;
  all_file_types : list scalar;
  all_descriptions : list string;
  all_tags : list (list string);
  all_mime_types : list string
}.

Definition no_files : file_lists := mkLists [] [] [] [] [].

(** The chain of tests on [file_type] that sets the mimetype. *)
Definition mime_type (file_type : scalar) : string :=
  if eq_str file_type "jpg" then "image/jpeg"
  else if eq_str file_type "xml" then "application/xml"
  else if eq_str file_type "txt" then "text/plain"
  else if eq_str file_type "csv" then "text/csv"
  else "UNKNOWN".

(** The tags of one file: ['Data'], extended by the observed entities. *)
Definition file_tags_of (observations : scalar) : list string :=
  let file_tags := ["Data"] in
  if notna observations
  then file_tags ++ py_split (py_str observations) ";"
  else file_tags.

(** One turn of the loop over [inventory_df.iterrows()]. *)
Definition datafile_row (template_txt template_xml : string)
    (acc : file_lists) (row : Series scalar) : M file_lists :=
  filename <- row_item row "filename" ;;
  let filenames := all_filenames acc ++ [filename] in
  series_name <- row_item row "series_name" ;;
  file_type <- row_item row "file_type" ;;
  let file_types := all_file_types acc ++ [file_type] in
  observations <- row_item row "observation" ;;
  let file_tags := file_tags_of observations in
  let mime_types := all_mime_types acc ++ [mime_type file_type] in
  (* handle csv files: the value set here is overwritten just below *)
  desc <- (if eq_str file_type "csv"
           then str_add (template_xml +:+ " ") series_name
           else ret EmptyString) ;;
  desc <- (if eq_str file_type "xml"
           then str_add (template_xml +:+ " ") series_name
           else str_add (template_txt +:+ " ") series_name) ;;
  let descriptions := all_descriptions acc ++ [desc] in
  let tags := all_tags acc ++ [file_tags] in
  ret (mkLists filenames file_types descriptions tags mime_types).

Definition tags_value (tags : list string) : pyval := PList (pstr <$> tags).

Definition create_datafile_metadata (inventory_df : DataFrame scalar)
    (template_csv template_txt template_xml : string) : M (DataFrame pyval) :=
  (* validate parameters *)
  if df_empty inventory_df || negb (str_truthy template_csv)
     || negb (str_truthy template_txt)
  then
    print "Error: One or more invalid parameters" ;;
    ret empty_frame
  else
  (* check the dataframe for required fields *)
  if negb (has_column inventory_df "filename")
     || negb (has_column inventory_df "file_type")
     || negb (has_column inventory_df "series_name")
     || negb (has_column inventory_df "observation")
  then
    print "Error: One or more missing required fields in inventory" ;;
    ret empty_frame
  else
  acc <- for_each (iterrows inventory_df)
                  (datafile_row template_txt template_xml) no_files ;;
  frame_of_dict
    [("filename", PS <$> all_filenames acc);
     ("file_type", PS <$> all_file_types acc);
     ("description", pstr <$> all_descriptions acc);
     ("mimetype", pstr <$> all_mime_types acc);
     ("tags", tags_value <$> all_tags acc)].

(** ** Reading Python values *)

(** [d.get(k)] on a dict. *)
Definition dict_get (d : dict) (k : string) : pyval :=
  default (PS SNone) (d !! k).

(** [v.get(k)]: only dicts have the method. *)
Definition py_get (v : pyval) (k : string) : M pyval :=
  match v with
  | PDict d => ret (dict_get d k)
  | _ => raise AttributeError
  end.

(** [v[k]] for a string [k]. *)
Definition py_item (v : pyval) (k : string) : M pyval :=
  match v with
  | PDict d =>
      match d !! k with
      | Some x => ret x
      | None => raise (KeyError k)
      end
  | _ => raise TypeError
  end.

(** [v[0]] *)
Definition py_first (v : pyval) : M pyval :=
  match v with
  | PList (x :: _) => ret x
  | PList [] => raise IndexError
  | PDict _ => raise (KeyError "0")
  | PS (SStr (String c _)) => ret (pstr (String c EmptyString))
  | PS (SStr EmptyString) => raise IndexError
  | PS _ => raise TypeError
  end.

Fixpoint chars (s : string) : list string :=
  match s with
  | EmptyString => []
  | String c s' => String c EmptyString :: chars s'
  end.

(** The items a [for] loop draws from [v].  A dict yields its keys, here in
    the order of the map, not of insertion. *)
Definition py_iter (v : pyval) : M (list pyval) :=
  match v with
  | PList l => ret l
  | PDict d => ret (pstr <$> (map_to_list d).*1)
  | PS (SStr s) => ret (pstr <$> chars s)
  | PS _ => raise TypeError
  end.

(** [response.json()] *)
Definition json (r : response) : M pyval :=
  match body r with
  | Some v => ret v
  | None => raise JSONDecodeError
  end.

(** The test [status >= 200 and status < 300]. *)
Definition is_2xx (status : Z) : bool := (200 <=? status) && (status <? 300).

(** {'X-Dataverse-key': api_token, 'Content-Type': 'application/json'} *)
Definition headers_of (api_token : string) : list (string * string) :=
  [("X-Dataverse-key", api_token); ("Content-Type", "application/json")].

(** ** [pydataverse_create_dataset] *)

(** The attributes set on the pyDataverse dataset model. *)
Record Dataset := mkDataset {
  ds_title : pyval;
  ds_author : pyval;
  ds_dsDescription : pyval;
  ds_datasetContact : pyval;
  ds_subject : pyval;
  ds_license : pyval;
  ds_keyword : pyval;
  ds_topicClassification : pyval;
  ds_dataSources : pyval;
  ds_distributionDate : pyval;
  ds_astroObject : pyval;
  ds_astroFacility : pyval;
  ds_universe : pyval
}.

(** The two methods of the pyDataverse model the program calls. *)
Class PyDataverse := {
  validate_json : Dataset → bool;
  ds_json : Dataset → string
}.

(** {'status': False, 'dataset_id': -1, 'dataset_pid': ''} *)
Definition create_failed : dict :=
  <["status" := PS (SBool false)]>
  (<["dataset_id" := PS (SInt (-1))]>
  (<["dataset_pid" := pstr EmptyString]> ∅)).

Definition dict_truthy (d : dict) : bool := truthy (PDict d).

(** The dataset model populated with the metadata values: each attribute
    is [dataset_metadata.get(...)]. *)
Definition dataset_model (dataset_metadata : dict) : Dataset := {|
  ds_title := dict_get dataset_metadata "title";
  ds_author := dict_get dataset_metadata "author";
  ds_dsDescription := dict_get dataset_metadata "description";
  ds_datasetContact := dict_get dataset_metadata "contact";
  ds_subject := dict_get dataset_metadata "subject";
  ds_license := dict_get dataset_metadata "license";
  ds_keyword := dict_get dataset_metadata "keywords";
  ds_topicClassification := dict_get dataset_metadata "topic_classification";
  ds_dataSources := dict_get dataset_metadata "data_source";
  ds_distributionDate := dict_get dataset_metadata "creation_date";
  ds_astroObject := dict_get dataset_metadata "astroObject";
  ds_astroFacility := dict_get dataset_metadata "astroFacility";
  ds_universe := dict_get dataset_metadata "universe"
|}.

Section pydataverse.
Context `{PyDataverse}.

(** The POST that creates the dataset in the collection. *)
Definition create_request (api : Api) (dataverse_url : string)
    (ds : Dataset) : request :=
  let headers := headers_of (api_token api) in
  let request_url :=
    base_url api +:+ "/api/dataverses/" +:+ dataverse_url +:+ "/datasets" in
  Http POST request_url headers (Some (ds_json ds)).

Definition pydataverse_create_dataset (api : option Api)
    (dataverse_url : string) (dataset_metadata : dict) : M dict :=
  (* validate parameters *)
  match api with
  | None => ret create_failed
  | Some api =>
  if negb (dict_truthy dataset_metadata) then ret create_failed else
  (* create the dataset model and populate it *)
  let ds := dataset_model dataset_metadata in
  (* use pyDataverse to ensure that the metadata is valid *)
  if negb (validate_json ds) then ret create_failed else
  (* create the dataset via the dataverse api *)
  response <- send (create_request api dataverse_url ds) ;;
  let status := status_code response in
  (* handle http responses *)
  if negb (is_2xx status) then
    print_fmt "Error: {} - failed to create dataset {}"
              [PS (SInt status); dict_get dataset_metadata "title"] ;;
    ret create_failed
  else
  (* if success *)
  js <- json response ;;
  data <- py_get js "data" ;;
  dataset_id <- py_get data "id" ;;
  js <- json response ;;
  data <- py_get js "data" ;;
  dataset_pid <- py_get data "persistentId" ;;
  ret (<["status" := PS (SBool true)]>
      (<["dataset_id" := dataset_id]>
      (<["dataset_pid" := dataset_pid]> ∅)))
  end.
End pydataverse.

(** ** Listing a collection *)

(** [url.split(sep)[1]]: only strings have the method. *)
Definition second_piece (url : pyval) (sep : string) : M string :=
  match url with
  | PS (SStr s) =>
      match py_split s sep !! 1%nat with
      | Some piece => ret piece
      | None => raise IndexError
      end
  | _ => raise AttributeError
  end.

(** One turn of the loop over the listing: the dataset's DOI as a pid. *)
Definition pid_of_entry (datasets : list string) (dataset : pyval)
  : M (list string) :=
  url <- py_get dataset "persistentUrl" ;;
  pid <- second_piece url "https://doi.org/" ;;
  ret (datasets ++ ["doi:" +:+ pid]).

(** The start of [delete_datasets], [publish_datasets] and
    [unlock_datasets]: get the datasets in the collection. *)
Definition collection_datasets (api : Api) (dataverse_collection : string)
  : M (list string) :=
  contents <- send (GetDataverseContents api dataverse_collection) ;;
  js <- json contents ;;
  data <- py_get js "data" ;;
  items <- py_iter data ;;
  for_each items pid_of_entry [].

(** {'status': status, 'message': msg} *)
Definition status_entry (status : bool) (msg : string) : pyval :=
  PDict (<["status" := PS (SBool status)]> (<["message" := pstr msg]> ∅)).

(** {'status': False, 'message': 'Invalid parameter'} *)
Definition invalid_parameter : dict :=
  <["status" := PS (SBool false)]>
  (<["message" := pstr "Invalid parameter"]> ∅).

(** ** [publish_datasets] *)

Definition publish_url (base_url dataset version : string) : string :=
  base_url +:+ "/api/datasets/:persistentId/actions/:publish?persistentId="
  +:+ dataset +:+ "&type=" +:+ version.

Definition publish_request (api : Api) (version dataset : string) : request :=
  Http POST (publish_url (base_url api) dataset version)
       (headers_of (api_token api)) None.

Definition publish_entry (status : Z) (dataset : string) : pyval :=
  if negb (is_2xx status)
  then status_entry false
         ("publish_dataset::Error - failed to publish dataset: "
          +:+ pretty status +:+ ":" +:+ dataset)
  else status_entry true
         ("publish_dataset::Success - published dataset: "
          +:+ pretty status +:+ ":" +:+ dataset).

(** One turn of the publishing loop. *)
Definition publish_one (api : Api) (version : string)
    (errors : dict) (dataset : string) : M dict :=
  response <- send (publish_request api version dataset) ;;
  let status := status_code response in
  ret (<[dataset := publish_entry status dataset]> errors).

Definition publish_datasets (api : option Api)
    (dataverse_collection : string) (version : string) : M dict :=
  (* validate parameters *)
  match api with
  | None => ret invalid_parameter
  | Some api =>
  if negb (str_truthy dataverse_collection) then ret invalid_parameter else
  datasets <- collection_datasets api dataverse_collection ;;
  (* publish the datasets *)
  for_each datasets (publish_one api version) ∅
  end.

(** ** [unlock_datasets] *)

Definition locks_url (base_url dataset : string) : string :=
  base_url +:+ "/api/datasets/:persistentId/locks?persistentId=" +:+ dataset.

Definition locks_request (m : method) (api : Api) (dataset : string) : request :=
  Http m (locks_url (base_url api) dataset) (headers_of (api_token api)) None.

(** The identifier a lock names.  Dataverse gives the dataset's persistent
    identifier, a string; the model stops on anything else. *)
Definition as_pid (v : pyval) : M string :=
  match v with
  | PS (SStr s) => ret s
  | _ => raise Unmodelled
  end.

(** One turn of the first loop: ask for the locks of a dataset and keep the
    dataset named by the first one. *)
Definition check_lock (api : Api) (locked_pids : list string)
    (dataset : string) : M (list string) :=
  response <- send (locks_request GET api dataset) ;;
  js <- json response ;;
  lock_list <- py_item js "data" ;;
  if truthy lock_list then
    lock <- py_first lock_list ;;
    locked <- py_item lock "dataset" ;;
    pid <- as_pid locked ;;
    ret (locked_pids ++ [pid])
  else ret locked_pids.

Definition unlock_entry (status : Z) (pid : string) : pyval :=
  if negb (is_2xx status)
  then status_entry false
         ("publish_dataset::Error - failed to unlock dataset: "
          +:+ pretty status +:+ ":" +:+ pid)
  else status_entry true
         ("publish_dataset::Success - unlocked dataset: "
          +:+ pretty status +:+ ":" +:+ pid).

(** One turn of the second loop: remove the locks of a dataset. *)
Definition unlock_one (api : Api) (errors : dict) (pid : string) : M dict :=
  response <- send (locks_request DELETE api pid) ;;
  let status := status_code response in
  ret (<[pid := unlock_entry status pid]> errors).

Definition unlock_datasets (api : option Api) (dataverse_collection : string)
  : M dict :=
  (* validate parameters *)
  match api with
  | None => ret invalid_parameter
  | Some api =>
  if negb (str_truthy dataverse_collection) then ret invalid_parameter else
  datasets <- collection_datasets api dataverse_collection ;;
  (* check each dataset for a lock *)
  locked_pids <- for_each datasets (check_lock api) [] ;;
  (* unlock list of datasets *)
  for_each locked_pids (unlock_one api) ∅
  end.

(** ** [python_dvuploader] *)

(** The arguments of one [dv.File(...)]. *)
Record File := mkFile {
  filepath : string;
  file_name : pyval;
  description : pyval;
  mimeType : pyval;
  categories : pyval
}.

(** What the program asks of Python's [eval] and of the dvuploader library:
    [dv_upload files api_token dataverse_url persistent_id n_parallel_uploads]
    stands for [DVUploader(files=files).upload(...)]. *)
Class DVUploader := {
  py_eval : pyval → M pyval;
  dv_upload : list File → string → string → string → Z → M unit
}.

(** [row.get(c)] on a Series. *)
Definition series_get {A} (row : Series A) (c : string) (none : A) : A :=
  default none (assoc c row).

Section uploader.
Context `{DVUploader}.

(** One turn of the loop over [metadata_df.iterrows()]. *)
Definition upload_row (data_directory : string) (files : list File)
    (row : Series pyval) : M (list File) :=
  let file := series_get row "filename" (PS SNone) in
  filepath <- str_add (data_directory +:+ "/") file ;;
  let file_name := series_get row "filename" (PS SNone) in
  let desc := series_get row "description" (PS SNone) in
  let mime_type := series_get row "mimetype" (PS SNone) in
  (* format tags *)
  let tags := series_get row "tags" (PS SNone) in
  tags_lst <- py_eval tags ;;
  ret (files ++ [mkFile filepath file_name desc mime_type tags_lst]).

Definition python_dvuploader (api : option Api)
    (dataverse_url dataset_pid data_directory : string)
    (metadata_df : DataFrame pyval) : M pyval :=
  (* validate params *)
  match api with
  | None => ret (PS (SBool false))
  | Some api =>
  if negb (str_truthy dataverse_url) || negb (str_truthy dataset_pid)
     || negb (str_truthy data_directory) || df_empty metadata_df
  then ret (PS (SBool false))
  else
  files <- for_each (iterrows metadata_df) (upload_row data_directory) [] ;;
  let key := api_token api in
  dv_upload files key dataverse_url dataset_pid 2 ;;
  ret (PS SNone)
  end.
End uploader.

(** ** [create_dataset] *)

(** The easyDataverse dataset model, as far as the program drives it: the
    attributes it assigns and the [add_*] methods it calls. *)
Class EasyDataverse (D : Type) := {
  set_title : pyval → D → M D;
  add_author : pyval → pyval → D → M D;
  add_ds_description : pyval → D → M D;
  add_dataset_contact : pyval → pyval → D → M D;
  set_subject : pyval → D → M D;
  add_keyword : pyval → pyval → pyval → D → M D;
  add_topic_classification : pyval → D → M D;
  set_data_sources : pyval → D → M D;
  set_distribution_date : pyval → D → M D;
  set_astro_object : pyval → D → M D;
  set_astro_facility : pyval → D → M D;
  (** the truth value of [pd.notna(v)] for a list or dict [v] *)
  notna_array : pyval → M bool
}.

(** [if pd.notna(v)] *)
Definition if_notna `{EasyDataverse D} (v : pyval) : M bool :=
  match v with
  | PS s => ret (notna s)
  | _ => notna_array v
  end.

Section easydataverse.
Context `{EasyDataverse D}.

Definition create_dataset (ds : option D) (dataset_metadata : dict)
  : M (dict + D) :=
  (* validate parameters *)
  match ds with
  | None => ret (inl create_failed)
  | Some ds =>
  if negb (dict_truthy dataset_metadata) then ret (inl create_failed) else
  (* populate the dataset model with metadata values *)
  ds <- set_title (dict_get dataset_metadata "title") ds ;;
  authors <- py_iter (dict_get dataset_metadata "author") ;;
  ds <- for_each authors (λ ds author,
          name <- py_item author "authorName" ;;
          affiliation <- py_item author "authorAffiliation" ;;
          add_author name affiliation ds) ds ;;
  descs <- py_iter (dict_get dataset_metadata "description") ;;
  ds <- for_each descs (λ ds desc,
          value <- py_item desc "dsDescriptionValue" ;;
          add_ds_description value ds) ds ;;
  contacts <- py_iter (dict_get dataset_metadata "contact") ;;
  ds <- for_each contacts (λ ds contact,
          name <- py_item contact "datasetContactName" ;;
          email <- py_item contact "datasetContactEmail" ;;
          add_dataset_contact name email ds) ds ;;
  ds <- set_subject (dict_get dataset_metadata "subject") ds ;;
  keywords <- py_iter (dict_get dataset_metadata "keywords") ;;
  ds <- for_each keywords (λ ds keyword,
          value <- py_item keyword "keywordValue" ;;
          vocabulary <- py_item keyword "keywordVocabulary" ;;
          vocabulary_uri <- py_item keyword "keywordVocabularyURI" ;;
          add_keyword value vocabulary vocabulary_uri ds) ds ;;
  topics <- py_iter (dict_get dataset_metadata "topic_classification") ;;
  ds <- for_each topics (λ ds topic,
          value <- py_item topic "topicClassValue" ;;
          add_topic_classification value ds) ds ;;
  let data_sources := dict_get dataset_metadata "data_source" in
  present <- if_notna data_sources ;;
  ds <- (if present then set_data_sources data_sources ds else ret ds) ;;
  ds <- set_distribution_date (dict_get dataset_metadata "creation_date") ds ;;
  ds <- set_astro_object (dict_get dataset_metadata "astroObject") ds ;;
  ds <- set_astro_facility (dict_get dataset_metadata "astroFacility") ds ;;
  ret (inr ds)
  end.
End easydataverse.

(** * The builders over the object store

    Here every list, dict and table is an object of the store and is known
    by its reference, as in Python: the inventory is passed by reference, a
    list literal or comprehension and a dict literal allocate, and [append]
    and [extend] update in place.  A row drawn by [iterrows] is a copy, kept
    as a value. *)
Module Store.

Definition with_objects (w : world) (σ : list object) : world :=
  mkWorld (server w) (sent w) (stdout w) σ.

(** A new object, placed at the end of the store. *)
Definition alloc (o : object) : M value :=
  λ w, (Return (VRef (length (objects w))),
        with_objects w (objects w ++ [o])).

(** The object a value refers to.  A scalar has none of the attributes and
    methods of a container; a reference always has its object. *)
Definition deref (v : value) : M object :=
  λ w, match v with
       | VS _ => (Raise AttributeError, w)
       | VRef l =>
           match objects w !! l with
           | Some o => (Return o, w)
           | None => (Raise Unmodelled, w)
           end
       end.

(** Replacing the contents of an object in place. *)
Definition update (v : value) (o : object) : M unit :=
  λ w, match v with
       | VS _ => (Raise AttributeError, w)
       | VRef l =>
           if decide (l < length (objects w))%nat
           then (Return (), with_objects w (<[l := o]> (objects w)))
           else (Raise Unmodelled, w)
       end.

Definition deref_frame (v : value) : M (DataFrame value) :=
  o <- deref v ;;
  match o with
  | OFrame df => ret df
  | _ => raise AttributeError
  end.

Definition deref_list (v : value) : M (list value) :=
  o <- deref v ;;
  match o with
  | OList items => ret items
  | _ => raise AttributeError
  end.

(** [[x1, ..., xn]] *)
Definition new_list (items : list value) : M value := alloc (OList items).

(** [{k1: v1, ..., kn: vn}] *)
Definition new_dict (entries : list (string * value)) : M value :=
  alloc (ODict (list_to_map entries)).

(** [l.extend(items)] and [l.append(x)] *)
Definition list_extend (l : value) (items : list value) : M unit :=
  old <- deref_list l ;;
  update l (OList (old ++ items)).

Definition list_append (l : value) (x : value) : M unit :=
  list_extend l [x].

(** [[f(x) for x in l]], the elements computed from left to right. *)
Fixpoint for_list {A B} (l : list A) (f : A → M B) : M (list B) :=
  match l with
  | [] => ret []
  | x :: l' => y <- f x ;; ys <- for_list l' f ;; ret (y :: ys)
  end.

Definition vstr (s : string) : value := VS (SStr s).

(** [str(v)]: on scalars; the text of a container is not modelled. *)
Definition str_of (v : value) : M string :=
  match v with
  | VS s => ret (py_str s)
  | VRef _ => raise Unmodelled
  end.

(** [pd.notna(v)] as a condition: on scalars; on a container it is an array,
    whose truth value is not modelled. *)
Definition notna_of (v : value) : M bool :=
  match v with
  | VS s => ret (notna s)
  | VRef _ => raise Unmodelled
  end.

(** [v == s] for a string literal [s]. *)
Definition eq_str_of (v : value) (s : string) : bool :=
  match v with
  | VS x => eq_str x s
  | VRef _ => false
  end.

(** [a + b] where [a] is a string. *)
Definition str_add_of (a : string) (b : value) : M string :=
  match b with
  | VS (SStr s) => ret (a +:+ s)
  | _ => raise TypeError
  end.

(** [v.split(';') if isinstance(v, str) else []], a new list. *)
Definition split_if_str_of (v : value) : M value :=
  match v with
  | VS s => new_list (vstr <$> split_if_str s)
  | VRef _ => new_list []
  end.

Definition keyword_entry_of (kw : value) : M value :=
  new_dict [("keywordValue", kw);
            ("keywordVocabulary", vstr "LCSH");
            ("keywordVocabularyURI",
             vstr "https://www.loc.gov/aba/cataloging/subject/")].

Definition topic_entry_of (top : value) : M value :=
  new_dict [("topicClassValue", top)].

Definition create_dataset_metadata
    (author affiliation contact email series_name : string)
    (series_inventory : value) : M value :=
  let invalid :=
    print "Error: One or more invalid parameter values" ;;
    new_dict [] in
  (* Validate parameters *)
  if negb (str_truthy author) || negb (str_truthy affiliation)
     || negb (str_truthy contact) || negb (str_truthy email)
     || negb (str_truthy series_name)
  then invalid else
  inventory <- deref_frame series_inventory ;;
  if df_empty inventory then invalid else
  (* Check the inventory for required fields *)
  match find (λ field, negb (has_column inventory field))
             required_fields with
  | Some field =>
      print_fmt "Error: Missing required field {} in inventory" [pstr field] ;;
      new_dict []
  | None =>
  let index := 0%nat in
  dataset_title <- df_at inventory index "series_name" ;;
  volume_title <- df_at inventory index "volume_title" ;;
  card_number <- df_at inventory index "card_number" ;;
  contributor <- df_at inventory index "contributor" ;;
  all_observations <- df_at inventory index "all_observations" ;;
  collection_date_year <- df_at inventory index "card_date_year" ;;
  collection_date_month <- df_at inventory index "card_date_month" ;;
  collection_date_day <- df_at inventory index "card_date_day" ;;
  year <- str_of collection_date_year ;;
  month <- str_of collection_date_month ;;
  day <- str_of collection_date_day ;;
  let collection_date := year +:+ "-" +:+ month +:+ "-" +:+ day in
  (* keywords *)
  keyword_str <- df_at inventory index "subjects" ;;
  keywords <- split_if_str_of keyword_str ;;
  keyword_items <- deref_list keywords ;;
  kw_entries <- for_list keyword_items keyword_entry_of ;;
  kws <- new_list kw_entries ;;
  (* topic classes *)
  topic_class_str <- df_at inventory index "topic_class" ;;
  topics <- split_if_str_of topic_class_str ;;
  topic_items <- deref_list topics ;;
  tp_entries <- for_list topic_items topic_entry_of ;;
  tps <- new_list tp_entries ;;
  (* objects *)
  objects_str <- df_at inventory index "all_observations" ;;
  objects <- split_if_str_of objects_str ;;
  object_items <- deref_list objects ;;
  obs <- new_list object_items ;;
  (* description *)
  title_text <- str_of dataset_title ;;
  card_text <- str_of card_number ;;
  contributor_text <- str_of contributor ;;
  observations_text <- str_of all_observations ;;
  let description :=
    title_text
    +:+ " is a series of tables and text files associated with HCO Announcement Card number: "
    +:+ card_text +:+ ". Compiled by: " +:+ contributor_text
    +:+ ". Objects observed include " +:+ observations_text +:+ "." in
  (* other metadata *)
  let subjects := "Astronomy and Astrophysics" in
  url <- df_at inventory index "url" ;;
  data_source <- new_list [url] ;;
  astro_facility <- new_list [vstr "Harvard Bureau of Astronomical Telegrams"] ;;
  let astro_type := "Observation" in
  (* the dataset metadata dictionary *)
  author_entry <- new_dict [("authorName", vstr author);
                            ("authorAffiliation", vstr affiliation)] ;;
  authors <- new_list [author_entry] ;;
  description_entry <- new_dict [("dsDescriptionValue", vstr description)] ;;
  descriptions <- new_list [description_entry] ;;
  contact_entry <- new_dict [("datasetContactName", vstr contact);
                             ("datasetContactAffiliation", vstr affiliation);
                             ("datasetContactEmail", vstr email)] ;;
  contacts <- new_list [contact_entry] ;;
  subject <- new_list [vstr subjects] ;;
  new_dict [("title", dataset_title);
            ("author", authors);
            ("description", descriptions);
            ("contact", contacts);
            ("subject", subject);
            ("license", vstr "CC0 1.0");
            ("keywords", kws);
            ("topic_classification", tps);
            ("data_source", data_source);
            ("creation_date", vstr collection_date);
            ("astroObject", obs);
            ("astroFacility", astro_facility);
            ("astroType", vstr astro_type)]
  end.

(** The five lists the loop appends to, by reference. *)
Record file_refs := mkRefs {
  filenames_ref : value;
  file_types_ref : value;
  descriptions_ref : value;
  tags_ref : value;
  mime_types_ref : value
}.

(** One turn of the loop over [inventory_df.iterrows()]. *)
Definition datafile_row (template_txt template_xml : string)
    (lists : file_refs) (row : Series value) : M unit :=
  filename <- row_item row "filename" ;;
  list_append (filenames_ref lists) filename ;;
  series_name <- row_item row "series_name" ;;
  file_type <- row_item row "file_type" ;;
  list_append (file_types_ref lists) file_type ;;
  file_tags <- new_list [vstr "Data"] ;;
  observations <- row_item row "observation" ;;
  present <- notna_of observations ;;
  (if present then
     text <- str_of observations ;;
     entities <- new_list (vstr <$> py_split text ";") ;;
     items <- deref_list entities ;;
     list_extend file_tags items
   else ret ()) ;;
  list_append (mime_types_ref lists)
    (vstr (match file_type with
           | VS t => mime_type t
           | VRef _ => "UNKNOWN"
           end)) ;;
  desc <- (if eq_str_of file_type "csv"
           then str_add_of (template_xml +:+ " ") series_name
           else ret EmptyString) ;;
  desc <- (if eq_str_of file_type "xml"
           then str_add_of (template_xml +:+ " ") series_name
           else str_add_of (template_txt +:+ " ") series_name) ;;
  list_append (descriptions_ref lists) (vstr desc) ;;
  list_append (tags_ref lists) file_tags.

(** [pd.DataFrame({c1: l1, ...})]: the dict literal, then the table with the
    items of the lists copied into its columns. *)
Definition frame_of_lists (cols : list (string * value)) : M value :=
  new_dict cols ;;
  columns <- for_list cols (λ c, items <- deref_list c.2 ;; ret (c.1, items)) ;;
  if rectangular (mkDF columns) then alloc (OFrame (mkDF columns))
  else raise ValueError.

Definition create_datafile_metadata (inventory_df : value)
    (template_csv template_txt template_xml : string) : M value :=
  (* validate parameters *)
  inventory <- deref_frame inventory_df ;;
  if df_empty inventory || negb (str_truthy template_csv)
     || negb (str_truthy template_txt)
  then
    print "Error: One or more invalid parameters" ;;
    alloc (OFrame empty_frame)
  else
  if negb (has_column inventory "filename")
     || negb (has_column inventory "file_type")
     || negb (has_column inventory "series_name")
     || negb (has_column inventory "observation")
  then
    print "Error: One or more missing required fields in inventory" ;;
    alloc (OFrame empty_frame)
  else
  all_filenames <- new_list [] ;;
  all_file_types <- new_list [] ;;
  all_descriptions <- new_list [] ;;
  all_tags <- new_list [] ;;
  all_mime_types <- new_list [] ;;
  let lists := mkRefs all_filenames all_file_types all_descriptions all_tags
                 all_mime_types in
  for_each (iterrows inventory)
    (λ _ row, datafile_row template_txt template_xml lists row) () ;;
  frame_of_lists [("filename", all_filenames);
                  ("file_type", all_file_types);
                  ("description", all_descriptions);
                  ("mimetype", all_mime_types);
                  ("tags", all_tags)].

End Store.

(** * Properties *)

(** ** The monad and its loops *)

Lemma bind_return {A B} (m : M A) (k : A → M B) w a w' :
  m w = (Return a, w') → bind m k w = k a w'.
Proof. intros Hm. unfold bind. by rewrite Hm. Qed.

Lemma bind_raise {A B} (m : M A) (k : A → M B) w e w' :
  m w = (Raise e, w') → bind m k w = (Raise e, w').
Proof. intros Hm. unfold bind. by rewrite Hm. Qed.

(** A loop whose body neither raises nor touches the world is a fold. *)
Lemma for_each_pure {A S} (f : S → A → S) (body : S → A → M S) (l : list A) :
  (∀ x, x ∈ l → ∀ s w, body s x w = (Return (f s x), w)) →
  ∀ s w, for_each l body s w = (Return (foldl f s l), w).
Proof.
  induction l as [|x l IH]; intros Hbody s w; first done.
  simpl. erewrite bind_return; last by apply Hbody; left.
  apply IH. intros y Hy. apply Hbody. by right.
Qed.

(** ** Tables *)

Definition column {A} (df : DataFrame A) (c : string) : option (list A) :=
  assoc c (df_cols df).

Lemma assoc_is_Some {A} (c : string) (l : list (string * A)) :
  c ∈ l.*1 ↔ is_Some (assoc c l).
Proof.
  induction l as [|[k a] l IH]; simpl.
  - split; [by intros ?%elem_of_nil | by intros [? ?]].
  - rewrite elem_of_cons IH. destruct (String.eqb_spec k c) as [->|Hne].
    + split; eauto.
    + split; [intros [?|?]; congruence || done | by right].
Qed.

Lemma has_column_true {A} (df : DataFrame A) c :
  has_column df c = true → ∃ cells, column df c = Some cells.
Proof.
  unfold has_column, column, columns. intros Hc%bool_decide_eq_true_1.
  by apply assoc_is_Some in Hc as [cells ->]; eauto.
Qed.

Lemma has_column_false {A} (df : DataFrame A) c :
  has_column df c = false → column df c = None.
Proof.
  unfold has_column, column, columns. intros Hc%bool_decide_eq_false_1.
  destruct (assoc c (df_cols df)) eqn:E; last done.
  destruct Hc. apply assoc_is_Some. by rewrite E.
Qed.

Lemma rectangular_length {A} (df : DataFrame A) c cells :
  rectangular df = true → column df c = Some cells →
  length cells = nrows df.
Proof.
  unfold rectangular, column. generalize (nrows df) as n.
  intros n. induction (df_cols df) as [|[k a] l IH]; simpl; first done.
  intros [Hlen Hrest]%andb_true_iff.
  destruct (String.eqb k c).
  - intros [= <-]. by apply Nat.eqb_eq.
  - by apply IH.
Qed.

(** In a rectangular table, row [i] holds the [i]-th cell of each column. *)
Lemma assoc_row_at {A} (df : DataFrame A) (i : nat) c :
  rectangular df = true → (i < nrows df)%nat →
  assoc c (row_at df i) = column df c ≫= (λ cells, cells !! i).
Proof.
  unfold rectangular, column, row_at. generalize (nrows df) as n.
  intros n. induction (df_cols df) as [|[k a] l IH]; simpl; first done.
  intros [Hlen%Nat.eqb_eq Hrest]%andb_true_iff Hi.
  destruct (lookup_lt_is_Some_2 a i) as [v Hv]; first lia.
  rewrite Hv. simpl. destruct (String.eqb k c); first done.
  by apply IH.
Qed.

(** Reading one column off the rows gives the column back. *)
Lemma iterrows_column {A} (df : DataFrame A) c cells (d : A) :
  rectangular df = true → column df c = Some cells →
  (λ row, default d (assoc c row)) <$> iterrows df = cells.
Proof.
  intros Hrect Hc. pose proof (rectangular_length _ _ _ Hrect Hc) as Hlen.
  apply list_eq. intros i. unfold iterrows.
  rewrite -list_fmap_compose list_lookup_fmap.
  destruct (decide (i < nrows df)%nat) as [Hi|Hi].
  - rewrite lookup_seq_lt //. simpl.
    rewrite assoc_row_at // Hc. simpl.
    destruct (lookup_lt_is_Some_2 cells i) as [v Hv]; first lia.
    by rewrite Hv.
  - rewrite lookup_seq_ge; last lia.
    rewrite lookup_ge_None_2 //. lia.
Qed.

Lemma iterrows_length {A} (df : DataFrame A) :
  length (iterrows df) = nrows df.
Proof. unfold iterrows. by rewrite length_fmap length_seq. Qed.

Lemma iterrows_item {A} (df : DataFrame A) c row :
  rectangular df = true → has_column df c = true → row ∈ iterrows df →
  ∃ v, assoc c row = Some v.
Proof.
  intros Hrect [cells Hc]%has_column_true. unfold iterrows.
  intros (i & -> & Hi%elem_of_seq)%list_elem_of_fmap.
  rewrite assoc_row_at //; last lia. rewrite Hc. simpl.
  apply lookup_lt_is_Some_2.
  rewrite (rectangular_length _ _ _ Hrect Hc). lia.
Qed.

(** ** [create_datafile_metadata] on a valid inventory *)

(** An inventory the function accepts and can process: it has rows, its
    columns have one length, the four columns read are there, and the series
    names are strings (they are appended to a template). *)
Definition valid_inventory (df : DataFrame scalar) : bool :=
  negb (df_empty df) && rectangular df
  && has_column df "filename" && has_column df "file_type"
  && has_column df "series_name" && has_column df "observation"
  && match column df "series_name" with
     | Some names => forallb is_str names
     | None => false
     end.

(** The description the loop gives a file. *)
Definition describe (template_txt template_xml : string)
    (file_type series_name : scalar) : string :=
  ((if eq_str file_type "xml" then template_xml else template_txt) +:+ " ")
  +:+ py_str series_name.

(** The loop body as a function of the row, for rows that have the cells. *)
Definition cell (c : string) (row : Series scalar) : scalar :=
  default SNone (assoc c row).

Definition add_file (template_txt template_xml : string)
    (acc : file_lists) (row : Series scalar) : file_lists :=
  mkLists
    (all_filenames acc ++ [cell "filename" row])
    (all_file_types acc ++ [cell "file_type" row])
    (all_descriptions acc
       ++ [describe template_txt template_xml (cell "file_type" row)
                    (cell "series_name" row)])
    (all_tags acc ++ [file_tags_of (cell "observation" row)])
    (all_mime_types acc ++ [mime_type (cell "file_type" row)]).

Lemma datafile_row_pure template_txt template_xml acc row fn ft sn ob w :
  assoc "filename" row = Some fn → assoc "file_type" row = Some ft →
  assoc "series_name" row = Some (SStr sn) → assoc "observation" row = Some ob →
  datafile_row template_txt template_xml acc row w
  = (Return (add_file template_txt template_xml acc row), w).
Proof.
  intros Hfn Hft Hsn Hob.
  unfold datafile_row, add_file, describe, cell, row_item, bind, ret, str_add.
  rewrite Hfn Hft Hsn Hob /=.
  by destruct (eq_str ft "csv"), (eq_str ft "xml").
Qed.

Lemma foldl_add_file template_txt template_xml rows acc :
  foldl (add_file template_txt template_xml) acc rows
  = mkLists
      (all_filenames acc ++ (cell "filename" <$> rows))
      (all_file_types acc ++ (cell "file_type" <$> rows))
      (all_descriptions acc
         ++ ((λ row, describe template_txt template_xml
                       (cell "file_type" row) (cell "series_name" row))
               <$> rows))
      (all_tags acc ++ ((λ row, file_tags_of (cell "observation" row)) <$> rows))
      (all_mime_types acc ++ ((λ row, mime_type (cell "file_type" row)) <$> rows)).
Proof.
  revert acc. induction rows as [|row rows IH]; intros acc; simpl.
  - rewrite !app_nil_r. by destruct acc.
  - rewrite IH /=. by rewrite -!app_assoc.
Qed.

Lemma zip_with_rows {A B C D} (f : B → C → D) (g : A → B) (h : A → C)
    (l : list A) :
  (λ x, f (g x) (h x)) <$> l = zip_with f (g <$> l) (h <$> l).
Proof. induction l as [|x l IH]; csimpl; [done | by f_equal]. Qed.

(** What the function returns on a valid inventory: the filenames and file
    types as they are, and a description, a mimetype and a tag list computed
    row by row.  The world is left as it was. *)
Lemma create_datafile_metadata_valid df template_csv template_txt template_xml w :
  valid_inventory df = true →
  str_truthy template_csv = true → str_truthy template_txt = true →
  ∃ fn ft sn ob,
    column df "filename" = Some fn ∧ column df "file_type" = Some ft ∧
    column df "series_name" = Some sn ∧ column df "observation" = Some ob ∧
    length fn = nrows df ∧ length ft = nrows df ∧
    length sn = nrows df ∧ length ob = nrows df ∧
    create_datafile_metadata df template_csv template_txt template_xml w
    = (Return (mkDF
         [("filename", PS <$> fn);
          ("file_type", PS <$> ft);
          ("description",
           pstr <$> zip_with (describe template_txt template_xml) ft sn);
          ("mimetype", pstr <$> (mime_type <$> ft));
          ("tags", tags_value <$> (file_tags_of <$> ob))]), w).
Proof.
  unfold valid_inventory. rewrite !andb_true_iff negb_true_iff.
  intros [[[[[[Hne Hrect] Hfn] Hft] Hsn] Hob] Hstr] Hcsv Htxt.
  destruct (has_column_true _ _ Hfn) as [fn Efn].
  destruct (has_column_true _ _ Hft) as [ft Eft].
  destruct (has_column_true _ _ Hsn) as [sn Esn].
  destruct (has_column_true _ _ Hob) as [ob Eob].
  rewrite Esn in Hstr.
  exists fn, ft, sn, ob.
  pose proof (rectangular_length _ _ _ Hrect Efn) as Lfn.
  pose proof (rectangular_length _ _ _ Hrect Eft) as Lft.
  pose proof (rectangular_length _ _ _ Hrect Esn) as Lsn.
  pose proof (rectangular_length _ _ _ Hrect Eob) as Lob.
  do 8 (split; first done).
  unfold create_datafile_metadata.
  rewrite Hne Hcsv Htxt Hfn Hft Hsn Hob /=.
  erewrite bind_return; last first.
  { apply (for_each_pure (add_file template_txt template_xml)).
    intros row Hrow acc w0.
    destruct (iterrows_item df "filename" row) as [v1 E1]; [done..|].
    destruct (iterrows_item df "file_type" row) as [v2 E2]; [done..|].
    destruct (iterrows_item df "series_name" row) as [v3 E3]; [done..|].
    destruct (iterrows_item df "observation" row) as [v4 E4]; [done..|].
    assert (is_str v3 = true) as Hv3.
    { apply (proj1 (forallb_forall is_str sn) Hstr).
      rewrite -(iterrows_column df "series_name" sn SNone) //.
      apply list_elem_of_In, list_elem_of_fmap. exists row.
      by rewrite E3. }
    destruct v3; try done.
    by eapply datafile_row_pure. }
  rewrite foldl_add_file /=.
  assert (∀ c cells, column df c = Some cells →
            cell c <$> iterrows df = cells) as Hcol.
  { intros c cells Hc. by apply (iterrows_column df c cells SNone). }
  rewrite (zip_with_rows (describe template_txt template_xml)
             (cell "file_type") (cell "series_name")).
  rewrite (list_fmap_compose (cell "observation") file_tags_of).
  rewrite (list_fmap_compose (cell "file_type") mime_type).
  rewrite (Hcol _ _ Efn) (Hcol _ _ Eft) (Hcol _ _ Esn) (Hcol _ _ Eob).
  unfold frame_of_dict, rectangular, nrows. simpl.
  rewrite !length_fmap length_zip_with Lfn Lft Lsn Lob.
  by rewrite Nat.min_id Nat.eqb_refl.
Qed.

(** The mapping from file type to mimetype, in the words of the
    specification. *)
Definition mime_of_spec (file_type : scalar) : string :=
  match file_type with
  | SStr "csv" => "text/csv"
  | SStr "txt" => "text/plain"
  | SStr "xml" => "application/xml"
  | SStr "jpg" => "image/jpeg"
  | _ => "UNKNOWN"
  end.

Lemma eq_str_true v s : eq_str v s = true ↔ v = SStr s.
Proof.
  destruct v; simpl; try (split; [done | by intros [=]]).
  rewrite String.eqb_eq. split; [by intros -> | by intros [= ->]].
Qed.

Lemma mime_type_spec file_type : mime_type file_type = mime_of_spec file_type.
Proof.
  unfold mime_type.
  destruct (eq_str file_type "jpg") eqn:Ejpg;
    first by apply eq_str_true in Ejpg as ->.
  destruct (eq_str file_type "xml") eqn:Exml;
    first by apply eq_str_true in Exml as ->.
  destruct (eq_str file_type "txt") eqn:Etxt;
    first by apply eq_str_true in Etxt as ->.
  destruct (eq_str file_type "csv") eqn:Ecsv;
    first by apply eq_str_true in Ecsv as ->.
  destruct file_type as [| | | |s]; try done.
  simpl in *. apply String.eqb_neq in Ejpg, Exml, Etxt, Ecsv.
  unfold mime_of_spec.
  repeat (match goal with
          | |- context [match ?x with _ => _ end] => destruct x
          end; try done).
Qed.

(** ** Sample inputs *)

(** A repository that answers every request with 200 and no JSON body. *)
Definition quiet_world : world :=
  mkWorld (λ _ _, mkResponse 200 None) [] [] [].

Definition sample_files : DataFrame scalar := mkDF
  [("filename", [SStr "a.csv"; SStr "b.xml"; SStr "c.txt"; SStr "d.jpg";
                 SStr "e.pdf"]);
   ("file_type", [SStr "csv"; SStr "xml"; SStr "txt"; SStr "jpg"; SStr "pdf"]);
   ("series_name", [SStr "S1"; SStr "S2"; SStr "S3"; SStr "S4"; SStr "S5"]);
   ("observation", [SStr "Nova;Comet"; SNaN; SInt 3; SNone; SStr "x"])].

(** ** The file type decides the mimetype *)

(** C4: the mimetype [create_datafile_metadata] gives a file is a function of
    its file type alone, defined for every value: 'csv' gives 'text/csv',
    'txt' gives 'text/plain', 'xml' gives 'application/xml', 'jpg' gives
    'image/jpeg' and every other value gives 'UNKNOWN'; on a valid inventory
    the mimetype column of the result is that function applied down the
    file_type column. *)
Theorem mime_mapping_total :
  (∀ file_type, mime_type file_type = mime_of_spec file_type) ∧
  (∀ df template_csv template_txt template_xml w,
     valid_inventory df = true →
     str_truthy template_csv = true → str_truthy template_txt = true →
     ∃ ft out,
       column df "file_type" = Some ft ∧
       create_datafile_metadata df template_csv template_txt template_xml w
       = (Return out, w) ∧
       column out "mimetype" = Some (pstr <$> (mime_of_spec <$> ft))).
Proof.
  split; first exact mime_type_spec.
  intros df csv txt xml w Hvalid Hcsv Htxt.
  destruct (create_datafile_metadata_valid df csv txt xml w Hvalid Hcsv Htxt)
    as (fn & ft & sn & ob & _ & Eft & _ & _ & _ & _ & _ & _ & Hrun).
  exists ft. eexists. split; first done. split; first exact Hrun.
  unfold column. simpl. do 2 f_equal.
  apply list_fmap_ext. intros _ v _. apply mime_type_spec.
Qed.

Lemma mime_mapping_total_witness :
  ∃ ft out,
    column sample_files "file_type" = Some ft ∧
    create_datafile_metadata sample_files "CSV" "TXT" "XML" quiet_world
    = (Return out, quiet_world) ∧
    column out "mimetype" = Some (pstr <$> (mime_of_spec <$> ft)).
Proof. apply (proj2 mime_mapping_total); reflexivity. Defined.

(** ** Descriptions *)

(** C8: on a valid inventory a 'csv' row is described by [template_txt],
    a blank and the row's series name; more generally an 'xml' row gets
    [template_xml] and every other row [template_txt]; and [template_csv]
    has no part in it: whatever it is, the call returns either the same
    table or, when it is empty, the empty table. *)
Theorem csv_described_by_template_txt
    df template_csv template_txt template_xml w :
  valid_inventory df = true →
  str_truthy template_csv = true → str_truthy template_txt = true →
  ∃ ft sn out descs,
    column df "file_type" = Some ft ∧ column df "series_name" = Some sn ∧
    create_datafile_metadata df template_csv template_txt template_xml w
    = (Return out, w) ∧
    column out "description" = Some descs ∧
    (∀ i name,
       ft !! i = Some (SStr "csv") → sn !! i = Some (SStr name) →
       descs !! i = Some (pstr ((template_txt +:+ " ") +:+ name))) ∧
    (∀ i t name,
       ft !! i = Some t → sn !! i = Some (SStr name) →
       descs !! i
       = Some (pstr (((if eq_str t "xml" then template_xml else template_txt)
                      +:+ " ") +:+ name))) ∧
    (∀ other_csv,
       create_datafile_metadata df other_csv template_txt template_xml w
       = (Return out, w)
       ∨ fst (create_datafile_metadata df other_csv template_txt template_xml w)
         = Return empty_frame).
Proof.
  intros Hvalid Hcsv Htxt.
  destruct (create_datafile_metadata_valid df template_csv template_txt
              template_xml w Hvalid Hcsv Htxt)
    as (fn & ft & sn & ob & Efn & Eft & Esn & Eob & _ & _ & _ & _ & Hrun).
  exists ft, sn. eexists. eexists.
  split; first done. split; first done. split; first exact Hrun.
  split; first reflexivity.
  assert (∀ i t name,
            ft !! i = Some t → sn !! i = Some (SStr name) →
            (pstr <$> zip_with (describe template_txt template_xml) ft sn) !! i
            = Some (pstr (((if eq_str t "xml" then template_xml
                            else template_txt) +:+ " ") +:+ name))) as Hdesc.
  { intros i t name Ht Hname.
    rewrite list_lookup_fmap lookup_zip_with Ht /= Hname //. }
  split; last split.
  - intros i name Ht Hname. by rewrite (Hdesc i _ name Ht Hname).
  - exact Hdesc.
  - intros other_csv. destruct (str_truthy other_csv) eqn:Hother.
    + left.
      destruct (create_datafile_metadata_valid df other_csv template_txt
                  template_xml w Hvalid Hother Htxt)
        as (fn' & ft' & sn' & ob' & Efn' & Eft' & Esn' & Eob' & _ & _ & _ & _
            & Hrun').
      rewrite Hrun'. congruence.
    + right. unfold create_datafile_metadata.
      rewrite Hother /= orb_true_r. done.
Qed.

Lemma csv_described_by_template_txt_witness :
  ∃ ft sn out descs,
    column sample_files "file_type" = Some ft ∧
    column sample_files "series_name" = Some sn ∧
    create_datafile_metadata sample_files "CSV" "TXT" "XML" quiet_world
    = (Return out, quiet_world) ∧
    column out "description" = Some descs ∧
    (∀ i name,
       ft !! i = Some (SStr "csv") → sn !! i = Some (SStr name) →
       descs !! i = Some (pstr (("TXT" +:+ " ") +:+ name))) ∧
    (∀ i t name,
       ft !! i = Some t → sn !! i = Some (SStr name) →
       descs !! i
       = Some (pstr (((if eq_str t "xml" then "XML" else "TXT") +:+ " ")
                     +:+ name))) ∧
    (∀ other_csv,
       create_datafile_metadata sample_files other_csv "TXT" "XML" quiet_world
       = (Return out, quiet_world)
       ∨ fst (create_datafile_metadata sample_files other_csv "TXT" "XML"
                quiet_world)
         = Return empty_frame).
Proof.
  apply (csv_described_by_template_txt sample_files "CSV" "TXT" "XML");
    reflexivity.
Defined.

(** ** One output row per file *)

Definition starts_with_Data (tags : pyval) : Prop :=
  ∃ rest, tags = PList (pstr "Data" :: rest).

(** C9: on a valid inventory the returned table has as many rows as the
    inventory, its filename and file_type columns are those of the inventory
    in the same order, and every tag list starts with 'Data'. *)
Theorem one_row_per_file df template_csv template_txt template_xml w :
  valid_inventory df = true →
  str_truthy template_csv = true → str_truthy template_txt = true →
  ∃ fn ft out tags,
    column df "filename" = Some fn ∧ column df "file_type" = Some ft ∧
    create_datafile_metadata df template_csv template_txt template_xml w
    = (Return out, w) ∧
    nrows out = nrows df ∧ rectangular out = true ∧
    column out "filename" = Some (PS <$> fn) ∧
    column out "file_type" = Some (PS <$> ft) ∧
    column out "tags" = Some tags ∧
    Forall starts_with_Data tags.
Proof.
  intros Hvalid Hcsv Htxt.
  destruct (create_datafile_metadata_valid df template_csv template_txt
              template_xml w Hvalid Hcsv Htxt)
    as (fn & ft & sn & ob & Efn & Eft & _ & _ & Lfn & Lft & Lsn & Lob & Hrun).
  exists fn, ft. eexists. eexists.
  split; first done. split; first done. split; first exact Hrun.
  split; last split; last split; last split; last split.
  - unfold nrows at 1. simpl. by rewrite length_fmap.
  - unfold rectangular, nrows. simpl.
    rewrite !length_fmap length_zip_with Lfn Lft Lsn Lob.
    by rewrite Nat.min_id Nat.eqb_refl.
  - done.
  - done.
  - reflexivity.
  - apply Forall_fmap, Forall_fmap, Forall_forall. intros v _.
    unfold starts_with_Data, file_tags_of, tags_value. simpl.
    destruct (notna v); csimpl; eauto.
Qed.

Lemma one_row_per_file_witness :
  ∃ fn ft out tags,
    column sample_files "filename" = Some fn ∧
    column sample_files "file_type" = Some ft ∧
    create_datafile_metadata sample_files "CSV" "TXT" "XML" quiet_world
    = (Return out, quiet_world) ∧
    nrows out = nrows sample_files ∧ rectangular out = true ∧
    column out "filename" = Some (PS <$> fn) ∧
    column out "file_type" = Some (PS <$> ft) ∧
    column out "tags" = Some tags ∧
    Forall starts_with_Data tags.
Proof.
  apply (one_row_per_file sample_files "CSV" "TXT" "XML"); reflexivity.
Defined.

(** ** [create_dataset_metadata] reads the first row *)

(** The columns [create_dataset_metadata] looks at. *)
Definition read_columns : list string :=
  ["series_name"; "volume_title"; "card_number"; "contributor";
   "all_observations"; "card_date_year"; "card_date_month"; "card_date_day";
   "subjects"; "topic_class"; "url"].

(** The first row of a table over the columns read: for each of them the
    cell, or [None] when the table has no such column; [None] altogether when
    the table has no row. *)
Definition first_row (df : DataFrame scalar) : option (list (option scalar)) :=
  if df_empty df then None
  else Some ((λ c, assoc c (row_at df 0)) <$> read_columns).

Definition is_some {A} (o : option A) : bool :=
  match o with Some _ => true | None => false end.

Lemma nonempty_nrows {A} (df : DataFrame A) :
  df_empty df = false → (0 < nrows df)%nat.
Proof. unfold df_empty. destruct (nrows df); [done | lia]. Qed.

Lemma has_column_first {A} (df : DataFrame A) c :
  rectangular df = true → df_empty df = false →
  has_column df c = is_some (assoc c (row_at df 0)).
Proof.
  intros Hrect Hne%nonempty_nrows. rewrite assoc_row_at //.
  destruct (has_column df c) eqn:Hc.
  - destruct (has_column_true _ _ Hc) as [cells Ec]. rewrite Ec /=.
    pose proof (rectangular_length _ _ _ Hrect Ec).
    destruct (lookup_lt_is_Some_2 cells 0) as [v ->]; [lia | done].
  - by rewrite (has_column_false _ _ Hc).
Qed.

Lemma df_at_first {A} (df : DataFrame A) c :
  rectangular df = true → df_empty df = false →
  df_at df 0 c = match assoc c (row_at df 0) with
                 | Some v => ret v
                 | None => raise (KeyError c)
                 end.
Proof.
  intros Hrect Hne%nonempty_nrows. rewrite assoc_row_at //.
  unfold df_at, column. destruct (assoc c (df_cols df)) as [cells|] eqn:Ec;
    last done.
  pose proof (rectangular_length df c cells Hrect Ec).
  simpl. destruct (lookup_lt_is_Some_2 cells 0) as [v ->]; [lia | done].
Qed.

Definition sample_inventory : DataFrame scalar := mkDF
  [("series_name", [SStr "Nova Aquilae"; SStr "Comet 1926a"]);
   ("volume_title", [SStr "Announcement Cards"; SStr "Announcement Cards"]);
   ("card_number", [SInt 12; SInt 13]);
   ("contributor", [SStr "H. Shapley"; SNaN]);
   ("all_observations", [SStr "Nova Aquilae;Comet 1926a"; SNaN]);
   ("card_date_year", [SInt 1926; SInt 1926]);
   ("card_date_month", [SInt 5; SInt 6]);
   ("card_date_day", [SNaN; SInt 2]);
   ("subjects", [SStr "Stars;Novae"; SNaN]);
   ("topic_class", [SNaN; SStr "Comets"]);
   ("url", [SStr "https://example.org/card12"; SNaN])].

(** The same first row, in another column order, with one more column and
    different rows below. *)
Definition sample_inventory' : DataFrame scalar := mkDF
  [("url", [SStr "https://example.org/card12"]);
   ("filename", [SStr "card12.csv"]);
   ("topic_class", [SNaN]);
   ("subjects", [SStr "Stars;Novae"]);
   ("card_date_day", [SNaN]);
   ("card_date_month", [SInt 5]);
   ("card_date_year", [SInt 1926]);
   ("all_observations", [SStr "Nova Aquilae;Comet 1926a"]);
   ("contributor", [SStr "H. Shapley"]);
   ("card_number", [SInt 12]);
   ("volume_title", [SStr "Announcement Cards"]);
   ("series_name", [SStr "Nova Aquilae"])].

(** Computations whose outcome does not depend on the world they start
    in. *)
Definition oblivious {A} (m : M A) : Prop :=
  ∀ w1 w2, fst (m w1) = fst (m w2).

Lemma oblivious_ret {A} (a : A) : oblivious (ret a).
Proof. done. Qed.

Lemma oblivious_raise {A} e : oblivious (@raise A e).
Proof. done. Qed.

Lemma oblivious_print fmt args : oblivious (print_fmt fmt args).
Proof. done. Qed.

Lemma oblivious_bind {A B} (m : M A) (k : A → M B) :
  oblivious m → (∀ a, oblivious (k a)) → oblivious (bind m k).
Proof.
  intros Hm Hk w1 w2. unfold bind. specialize (Hm w1 w2).
  destruct (m w1) as [[a1|e1] w1'], (m w2) as [[a2|e2] w2']; simpl in *;
    try done.
  - injection Hm as ->. apply Hk.
  - by injection Hm as ->.
Qed.

Lemma oblivious_df_at {A} (df : DataFrame A) i c : oblivious (df_at df i c).
Proof. unfold df_at. by repeat case_match. Qed.

Lemma oblivious_create_dataset_metadata
    author affiliation contact email series_name df :
  oblivious (create_dataset_metadata author affiliation contact email
               series_name df).
Proof.
  unfold create_dataset_metadata, print.
  repeat first
    [ apply oblivious_ret | apply oblivious_print | apply oblivious_df_at
    | apply oblivious_bind; [|intros ?]
    | match goal with
      | |- oblivious (if ?b then _ else _) => destruct b
      | |- oblivious (match ?x with _ => _ end) => destruct x
      end ].
Qed.

(** On tables whose first rows agree, two calls in one world run alike: same
    outcome, same lines printed. *)
Lemma same_first_row_same_run
    author affiliation contact email series_name df1 df2 w :
  rectangular df1 = true → rectangular df2 = true →
  first_row df1 = first_row df2 →
  create_dataset_metadata author affiliation contact email series_name df1 w
  = create_dataset_metadata author affiliation contact email series_name df2 w.
Proof.
  intros Hrect1 Hrect2. unfold first_row.
  destruct (df_empty df1) eqn:He1, (df_empty df2) eqn:He2; try done.
  - intros _. unfold create_dataset_metadata.
    by rewrite He1 He2 !orb_true_r.
  - intros [= H1 H2 H3 H4 H5 H6 H7 H8 H9 H10 H11].
    unfold create_dataset_metadata, required_fields. rewrite He1 He2 /=.
    rewrite !(has_column_first df1) // !(has_column_first df2) //.
    rewrite !(df_at_first df1) // !(df_at_first df2) //.
    by rewrite H1 H2 H3 H4 H5 H6 H7 H8 H9 H10 H11.
Qed.

(** A world in which a request was sent and a line printed already. *)
Definition busy_world : world :=
  mkWorld (λ _ _, mkResponse 503 None)
    [Http GET "https://demo.dataverse.org/api/info/version" [] None]
    [("Starting", [])] [OList []].

(** C5: what [create_dataset_metadata] returns depends on its five strings
    and, through the inventory, on the first row only: two calls with the
    same author, affiliation, contact, email and series name, on tables
    whose first rows agree on the columns read, return the same record (or
    raise the same exception) in whatever two worlds they are made; made in
    the same world, they also print the same. *)
Theorem metadata_from_first_row
    author affiliation contact email series_name df1 df2 :
  rectangular df1 = true → rectangular df2 = true →
  first_row df1 = first_row df2 →
  (∀ w1 w2,
     fst (create_dataset_metadata author affiliation contact email
            series_name df1 w1)
     = fst (create_dataset_metadata author affiliation contact email
              series_name df2 w2))
  ∧ (∀ w,
       create_dataset_metadata author affiliation contact email series_name
         df1 w
       = create_dataset_metadata author affiliation contact email
           series_name df2 w).
Proof.
  intros Hrect1 Hrect2 Hrow. split.
  - intros w1 w2.
    rewrite (same_first_row_same_run _ _ _ _ _ df1 df2) //.
    apply oblivious_create_dataset_metadata.
  - intros w. by apply same_first_row_same_run.
Qed.

Lemma metadata_from_first_row_witness :
  fst (create_dataset_metadata "A. Author" "Harvard" "C. Contact"
         "c@example.org" "Nova Aquilae" sample_inventory quiet_world)
  = fst (create_dataset_metadata "A. Author" "Harvard" "C. Contact"
           "c@example.org" "Nova Aquilae" sample_inventory' busy_world)
  ∧ create_dataset_metadata "A. Author" "Harvard" "C. Contact"
      "c@example.org" "Nova Aquilae" sample_inventory quiet_world
    = create_dataset_metadata "A. Author" "Harvard" "C. Contact"
        "c@example.org" "Nova Aquilae" sample_inventory' quiet_world.
Proof.
  destruct (metadata_from_first_row "A. Author" "Harvard" "C. Contact"
              "c@example.org" "Nova Aquilae" sample_inventory
              sample_inventory') as [Hworlds Hworld]; [reflexivity..|].
  split; [apply Hworlds | apply Hworld].
Defined.

(** ** Missing columns *)

(** A table without one of the six required fields gives the empty record,
    whatever the other arguments are. *)
Lemma missing_required_field_gives_empty
    author affiliation contact email series_name df field w :
  field ∈ required_fields → has_column df field = false →
  fst (create_dataset_metadata author affiliation contact email series_name
         df w) = Return ∅.
Proof.
  intros Hfield Hmissing. unfold create_dataset_metadata.
  destruct (_ || _); first done.
  destruct (find _ required_fields) as [f|] eqn:Hfind; first done.
  apply list_elem_of_In in Hfield.
  pose proof (find_none _ _ Hfind field Hfield) as Hpresent.
  simpl in Hpresent. by rewrite Hmissing in Hpresent.
Qed.

(** A table without one of the four columns [create_datafile_metadata]
    reads gives the empty table, whatever the templates are. *)
Lemma missing_file_column_gives_empty
    df template_csv template_txt template_xml c w :
  c ∈ ["filename"; "file_type"; "series_name"; "observation"] →
  has_column df c = false →
  fst (create_datafile_metadata df template_csv template_txt template_xml w)
  = Return empty_frame.
Proof.
  intros Hc Hmissing. unfold create_datafile_metadata.
  destruct (_ || _ || _); first done.
  repeat (apply elem_of_cons in Hc as [->|Hc];
          first by rewrite Hmissing /= ?orb_true_r).
  by apply elem_of_nil in Hc.
Qed.

(** An inventory with the six required fields and a row, but without the
    card number. *)
Definition inventory_without_card_number : DataFrame scalar := mkDF
  [("series_name", [SStr "Nova Aquilae"]);
   ("volume_title", [SStr "Announcement Cards"]);
   ("contributor", [SStr "H. Shapley"]);
   ("subjects", [SStr "Stars;Novae"]);
   ("card_date_year", [SInt 1926]);
   ("url", [SStr "https://example.org/card12"])].

(** C1: [create_dataset_metadata] reads the column card_number, which is not
    among the required fields it checks: on an inventory that has the six
    required fields but no card_number it raises KeyError where the empty
    record is expected. *)
Theorem missing_card_number_raises :
  create_dataset_metadata "A. Author" "Harvard" "C. Contact" "c@example.org"
    "Nova Aquilae" inventory_without_card_number quiet_world
  = (Raise (KeyError "card_number"), quiet_world).
Proof. reflexivity. Qed.

(** Membership in a list written out. *)
Ltac in_list := apply list_elem_of_In; simpl; tauto.

(** The same happens for each of the five columns read but not checked. *)
Lemma unchecked_column_raises
    author affiliation contact email series_name df c w :
  str_truthy author = true → str_truthy affiliation = true →
  str_truthy contact = true → str_truthy email = true →
  str_truthy series_name = true →
  rectangular df = true → df_empty df = false →
  (∀ field, field ∈ required_fields → has_column df field = true) →
  c ∈ ["card_number"; "all_observations"; "card_date_month"; "card_date_day";
       "topic_class"] →
  has_column df c = false →
  ∃ missing,
    create_dataset_metadata author affiliation contact email series_name df w
    = (Raise (KeyError missing), w).
Proof.
  intros H1 H2 H3 H4 H5 Hrect Hne Hreq Hc Hmissing.
  unfold create_dataset_metadata. rewrite H1 H2 H3 H4 H5 Hne /=.
  rewrite !Hreq; [|in_list..]. simpl.
  assert (∀ field, field ∈ required_fields →
            ∃ v, df_at df 0 field = ret v) as Hat.
  { intros field Hfield. rewrite df_at_first //.
    pose proof (Hreq field Hfield) as Hhas.
    rewrite has_column_first // in Hhas.
    destruct (assoc field (row_at df 0)); [eauto | done]. }
  assert (∀ field, has_column df field = false →
            df_at df 0 field = raise (KeyError field)) as Hno.
  { intros field Hfield. rewrite df_at_first //.
    rewrite has_column_first // in Hfield.
    by destruct (assoc field (row_at df 0)). }
  assert (∀ field, (∃ v, df_at df 0 field = ret v)
                   ∨ df_at df 0 field = raise (KeyError field)) as Hany.
  { intros field. rewrite df_at_first //.
    destruct (assoc field (row_at df 0)); eauto. }
  destruct (Hat "series_name") as [v1 ->]; first in_list.
  destruct (Hat "volume_title") as [v2 ->]; first in_list.
  destruct (Hat "contributor") as [v3 ->]; first in_list.
  destruct (Hat "card_date_year") as [v4 ->]; first in_list.
  destruct (Hat "subjects") as [v5 ->]; first in_list.
  destruct (Hat "url") as [v6 ->]; first in_list.
  repeat (apply elem_of_cons in Hc as [->|Hc]);
    try (by apply elem_of_nil in Hc);
    rewrite (Hno _ Hmissing);
    repeat match goal with
           | |- context [df_at df 0 ?f] =>
               destruct (Hany f) as [[? ->]| ->]
           end;
    unfold bind, ret, raise; simpl; eauto.
Qed.

(** ** Creating a dataset *)

Definition sample_api : Api := mkApi "https://demo.dataverse.org" "token".

Definition sample_metadata : dict :=
  <["title" := pstr "Nova Aquilae"]> ∅.

(** A pyDataverse that accepts every model, and one that rejects every
    model. *)
Definition accepting : PyDataverse :=
  {| validate_json := λ _, true; ds_json := λ _, "{}" |}.

Definition rejecting : PyDataverse :=
  {| validate_json := λ _, false; ds_json := λ _, "{}" |}.

(** A repository that gives every request the same answer. *)
Definition answering (status : Z) (js : option pyval) : world :=
  mkWorld (λ _ _, mkResponse status js) [] [] [].

(** C10: when [validate_json] rejects the model, the function returns
    {'status': False, 'dataset_id': -1, 'dataset_pid': ''} and leaves the
    world as it was: no request is sent. *)
Theorem invalid_metadata_sends_nothing `{PyDataverse}
    api dataverse_url dataset_metadata w :
  validate_json (dataset_model dataset_metadata) = false →
  pydataverse_create_dataset api dataverse_url dataset_metadata w
  = (Return create_failed, w).
Proof.
  intros Hinvalid. unfold pydataverse_create_dataset.
  destruct api as [api|]; last done.
  destruct (dict_truthy dataset_metadata); last done.
  by rewrite Hinvalid.
Qed.

Lemma invalid_metadata_sends_nothing_witness :
  @pydataverse_create_dataset rejecting (Some sample_api) "histd"
     sample_metadata (answering 200 None)
  = (Return create_failed, answering 200 None).
Proof.
  apply (@invalid_metadata_sends_nothing rejecting). reflexivity.
Defined.

(** [needle in s] *)
Definition contains (needle s : string) : bool :=
  is_some (String.index 0 needle s).

(** A value mentions a status code when it is that integer or a string with
    its decimal digits in it; a record carries the code when one of its
    values mentions it. *)
Definition mentions (code : Z) (v : pyval) : bool :=
  match v with
  | PS (SInt z) => z =? code
  | PS (SStr s) => contains (pretty code) s
  | _ => false
  end.

Definition carries_code (d : dict) (code : Z) : bool :=
  existsb (mentions code) (map_to_list d).*2.

(** C2, as stated, fails: after a 404 and after a 500 the function returns
    the same record, which holds no status code; and a 2xx answer without a
    JSON body makes it raise. *)
Lemma failure_result_drops_status_code :
  fst (@pydataverse_create_dataset accepting (Some sample_api) "histd"
         sample_metadata (answering 404 None)) = Return create_failed
  ∧ fst (@pydataverse_create_dataset accepting (Some sample_api) "histd"
           sample_metadata (answering 500 None)) = Return create_failed
  ∧ carries_code create_failed 404 = false
  ∧ fst (@pydataverse_create_dataset accepting (Some sample_api) "histd"
           sample_metadata (answering 200 None)) = Raise JSONDecodeError.
Proof. by vm_compute. Qed.

(** The world after the request [r] was sent. *)
Definition after_send (w : world) (r : request) : world :=
  mkWorld (server w) (sent w ++ [r]) (stdout w) (objects w).

Lemma bind_send {B} (r : request) (k : response → M B) w :
  bind (send r) k w = k (server w (sent w) r) (after_send w r).
Proof. done. Qed.

(** C2, amended: for a valid api, non-empty metadata that pass validation,
    and the response [r] to the creation request: when the status of [r] is
    in [200,300) and its body is a JSON object whose 'data' member is an
    object, the result has status True and the id and persistentId of that
    member; when the status is outside [200,300) the result is
    {'status': False, 'dataset_id': -1, 'dataset_pid': ''} and the status
    code goes to the printed message only.  One request is sent in both
    cases. *)
Theorem create_dataset_by_status `{PyDataverse}
    api dataverse_url dataset_metadata w :
  dict_truthy dataset_metadata = true →
  validate_json (dataset_model dataset_metadata) = true →
  let request :=
    create_request api dataverse_url (dataset_model dataset_metadata) in
  let r := server w (sent w) request in
  (is_2xx (status_code r) = true →
   ∀ js data,
     body r = Some (PDict js) → js !! "data" = Some (PDict data) →
     pydataverse_create_dataset (Some api) dataverse_url dataset_metadata w
     = (Return (<["status" := PS (SBool true)]>
               (<["dataset_id" := dict_get data "id"]>
               (<["dataset_pid" := dict_get data "persistentId"]> ∅))),
        after_send w request))
  ∧ (is_2xx (status_code r) = false →
     pydataverse_create_dataset (Some api) dataverse_url dataset_metadata w
     = (Return create_failed,
        mkWorld (server w) (sent w ++ [request])
          (stdout w ++ [("Error: {} - failed to create dataset {}",
                         [PS (SInt (status_code r));
                          dict_get dataset_metadata "title"])])
          (objects w))).
Proof.
  intros Hmd Hvalid request r. subst r.
  unfold pydataverse_create_dataset. rewrite Hmd Hvalid /=.
  fold request. rewrite bind_send.
  split.
  - intros Hok js data Hbody Hdata. rewrite Hok /=.
    unfold bind, json, py_get, dict_get, ret. simpl.
    by rewrite Hbody /= Hdata.
  - intros Hfail. by rewrite Hfail.
Qed.

Definition created : pyval :=
  PDict (<["status" := pstr "OK"]>
        (<["data" := PDict (<["id" := PS (SInt 42)]>
                           (<["persistentId" := pstr "doi:10.5072/FK2/ABC"]> ∅))]>
           ∅)).

Lemma create_dataset_by_status_witness :
  fst (@pydataverse_create_dataset accepting (Some sample_api) "histd"
         sample_metadata (answering 201 (Some created)))
  = Return (<["status" := PS (SBool true)]>
           (<["dataset_id" := PS (SInt 42)]>
           (<["dataset_pid" := pstr "doi:10.5072/FK2/ABC"]> ∅))).
Proof.
  destruct (@create_dataset_by_status accepting sample_api "histd"
              sample_metadata (answering 201 (Some created)))
    as [Hok _]; [reflexivity..|].
  rewrite (Hok eq_refl _ _ eq_refl eq_refl). reflexivity.
Defined.

(** ** Batches *)

(** Computations that leave the world as it is. *)
Definition quiet {A} (m : M A) : Prop := ∀ w, snd (m w) = w.

Lemma quiet_ret {A} (a : A) : quiet (ret a).
Proof. done. Qed.

Lemma quiet_raise {A} e : quiet (@raise A e).
Proof. done. Qed.

Lemma quiet_bind {A B} (m : M A) (k : A → M B) :
  quiet m → (∀ a, quiet (k a)) → quiet (bind m k).
Proof.
  intros Hm Hk w. unfold bind. specialize (Hm w).
  destruct (m w) as [[a|e] w1]; simpl in *; subst; [apply Hk | done].
Qed.

Lemma quiet_for_each {A S} (body : S → A → M S) l :
  (∀ s x, quiet (body s x)) → ∀ s, quiet (for_each l body s).
Proof.
  intros Hbody. induction l as [|x l IH]; intros s; simpl.
  - apply quiet_ret.
  - apply quiet_bind; [apply Hbody | apply IH].
Qed.

Create HintDb quiet.
#[local] Hint Resolve quiet_ret quiet_raise : quiet.
#[local] Hint Extern 2 (quiet (bind _ _)) =>
  apply quiet_bind; [|intros ?] : quiet.
#[local] Hint Extern 2 (quiet (for_each _ _ _)) =>
  apply quiet_for_each; intros ? ? : quiet.
#[local] Hint Extern 5 (quiet (match ?x with _ => _ end)) =>
  destruct x : quiet.

Lemma quiet_json r : quiet (json r).
Proof. unfold json. auto with quiet. Qed.

Lemma quiet_py_get v k : quiet (py_get v k).
Proof. unfold py_get. auto with quiet. Qed.

Lemma quiet_py_item v k : quiet (py_item v k).
Proof. unfold py_item. auto with quiet. Qed.

Lemma quiet_py_first v : quiet (py_first v).
Proof. unfold py_first. auto 8 with quiet. Qed.

Lemma quiet_py_iter v : quiet (py_iter v).
Proof. unfold py_iter. auto with quiet. Qed.

Lemma quiet_as_pid v : quiet (as_pid v).
Proof. unfold as_pid. auto with quiet. Qed.

Lemma quiet_second_piece v sep : quiet (second_piece v sep).
Proof. unfold second_piece. auto 8 with quiet. Qed.

#[local] Hint Resolve quiet_json quiet_py_get quiet_py_item quiet_py_first
  quiet_py_iter quiet_as_pid quiet_second_piece : quiet.

Lemma quiet_pid_of_entry datasets dataset :
  quiet (pid_of_entry datasets dataset).
Proof. unfold pid_of_entry. auto with quiet. Qed.

#[local] Hint Resolve quiet_pid_of_entry : quiet.

Lemma snd_bind_send {B} (r : request) (k : response → M B) w :
  (∀ a, quiet (k a)) → snd (bind (send r) k w) = after_send w r.
Proof. intros Hk. rewrite bind_send. apply Hk. Qed.

(** Listing a collection sends the listing request and nothing else. *)
Lemma collection_datasets_world api dataverse_collection w :
  snd (collection_datasets api dataverse_collection w)
  = after_send w (GetDataverseContents api dataverse_collection).
Proof.
  unfold collection_datasets. apply snd_bind_send. intros r.
  auto 10 with quiet.
Qed.

(** Checking a dataset for locks sends the GET and nothing else, and adds at
    most one identifier to the list. *)
Lemma check_lock_world api locked_pids dataset w :
  snd (check_lock api locked_pids dataset w)
  = after_send w (locks_request GET api dataset).
Proof.
  unfold check_lock. apply snd_bind_send. intros r.
  auto 10 with quiet.
Qed.

Lemma bind_inv {A B} (m : M A) (k : A → M B) w b w' :
  bind m k w = (Return b, w') →
  ∃ a w1, m w = (Return a, w1) ∧ k a w1 = (Return b, w').
Proof.
  unfold bind. destruct (m w) as [[a|e] w1]; [eauto | done].
Qed.

Lemma check_lock_result api locked_pids dataset w l w' :
  check_lock api locked_pids dataset w = (Return l, w') →
  l = locked_pids ∨ ∃ pid, l = locked_pids ++ [pid].
Proof.
  unfold check_lock. intros (r & w1 & _ & Hrest)%bind_inv.
  apply bind_inv in Hrest as (js & w2 & _ & Hrest).
  apply bind_inv in Hrest as (lock_list & w3 & _ & Hrest).
  destruct (truthy lock_list).
  - apply bind_inv in Hrest as (lock & w4 & _ & Hrest).
    apply bind_inv in Hrest as (locked & w5 & _ & Hrest).
    apply bind_inv in Hrest as (pid & w6 & _ & [= <- _]). eauto.
  - injection Hrest as <- _. by left.
Qed.

(** The first loop of [unlock_datasets]: one GET per dataset, in order, and
    no more locked datasets than datasets. *)
Lemma check_locks_loop api datasets : ∀ acc w locked w',
  for_each datasets (check_lock api) acc w = (Return locked, w') →
  w' = mkWorld (server w)
         (sent w ++ (locks_request GET api <$> datasets)) (stdout w)
         (objects w)
  ∧ (length locked ≤ length acc + length datasets)%nat.
Proof.
  induction datasets as [|d datasets IH]; intros acc w locked w'; simpl.
  - intros [= <- <-]. rewrite app_nil_r. split; [by destruct w | lia].
  - intros (acc1 & w1 & Hstep & Hrest)%bind_inv.
    pose proof (check_lock_world api acc d w) as Hw. rewrite Hstep /= in Hw.
    apply IH in Hrest as [-> Hlen]. subst w1. simpl.
    rewrite -app_assoc /=. split; first done.
    apply check_lock_result in Hstep as [->|[pid ->]];
      rewrite ?length_app /= in Hlen; lia.
Qed.

(** The two reporting loops have one shape: send the request of the
    dataset, then file an entry made from the status under the dataset's
    identifier. *)
Section report.
Variable request_of : string → request.
Variable entry_of : Z → string → pyval.

Definition report_one (errors : dict) (pid : string) : M dict :=
  response <- send (request_of pid) ;;
  ret (<[pid := entry_of (status_code response) pid]> errors).

(** The response the [i]-th dataset of the batch gets, the batch starting
    in world [w]. *)
Definition response_of (w : world) (pids : list string) (i : nat)
    (pid : string) : response :=
  server w (sent w ++ (request_of <$> take i pids)) (request_of pid).

Lemma report_step p pids errors w :
  for_each (p :: pids) report_one errors w
  = for_each pids report_one
      (<[p := entry_of (status_code (server w (sent w) (request_of p))) p]>
         errors)
      (after_send w (request_of p)).
Proof. done. Qed.

Lemma report_loop pids : ∀ errors w,
  ∃ errors',
    for_each pids report_one errors w
    = (Return errors',
       mkWorld (server w) (sent w ++ (request_of <$> pids)) (stdout w)
         (objects w))
    ∧ dom errors' = dom errors ∪ list_to_set pids
    ∧ (∀ pid, pid ∉ pids → errors' !! pid = errors !! pid)
    ∧ (∀ i pid, pids !! i = Some pid → pid ∉ drop (S i) pids →
         errors' !! pid
         = Some (entry_of (status_code (response_of w pids i pid)) pid)).
Proof.
  induction pids as [|p pids IH]; intros errors w.
  - exists errors. simpl. rewrite app_nil_r. split; first by destruct w.
    split; first by rewrite right_id_L. split; first done. by intros i pid.
  - rewrite report_step.
    set (e := entry_of (status_code (server w (sent w) (request_of p))) p).
    destruct (IH (<[p:=e]> errors) (after_send w (request_of p)))
      as (errors' & Hrun & Hdom & Hother & Hentry).
    exists errors'. split; last split; last split.
    + rewrite Hrun /=. by rewrite -app_assoc.
    + rewrite Hdom dom_insert_L list_to_set_cons.
      by rewrite (comm_L _ {[p]} (dom errors)) assoc_L.
    + intros pid [Hne Hnot]%not_elem_of_cons.
      rewrite Hother // lookup_insert_ne //.
    + intros [|i] pid Hi Hlast; simpl in *.
      * injection Hi as <-. rewrite Hother // lookup_insert_eq.
        unfold response_of. simpl. by rewrite app_nil_r.
      * rewrite (Hentry i pid Hi Hlast). unfold response_of. simpl.
        by rewrite -app_assoc.
Qed.

(** From an empty record and distinct identifiers: one entry each. *)
Lemma report_loop_distinct pids w :
  NoDup pids →
  ∃ errors,
    for_each pids report_one ∅ w
    = (Return errors,
       mkWorld (server w) (sent w ++ (request_of <$> pids)) (stdout w)
         (objects w))
    ∧ size errors = length pids
    ∧ dom errors = list_to_set pids
    ∧ (∀ i pid, pids !! i = Some pid →
         errors !! pid
         = Some (entry_of (status_code (response_of w pids i pid)) pid)).
Proof.
  intros Hnodup.
  destruct (report_loop pids ∅ w) as (errors & Hrun & Hdom & _ & Hentry).
  exists errors. rewrite dom_empty_L left_id_L in Hdom.
  split; first done. split; last (split; first done).
  - by rewrite -size_dom Hdom size_list_to_set.
  - intros i pid Hi. apply Hentry; first done.
    intros Hin. apply list_elem_of_lookup in Hin as [j Hj].
    rewrite lookup_drop in Hj.
    pose proof (NoDup_lookup _ _ _ _ Hnodup Hi Hj). lia.
Qed.
End report.

Lemma publish_one_report api version :
  publish_one api version
  = report_one (publish_request api version) publish_entry.
Proof. done. Qed.

Lemma unlock_one_report api :
  unlock_one api = report_one (locks_request DELETE api) unlock_entry.
Proof. done. Qed.

(** The status field of an entry tells whether the code was in [200,300). *)
Lemma publish_entry_status status dataset :
  py_item (publish_entry status dataset) "status"
  = ret (PS (SBool (is_2xx status))).
Proof. unfold publish_entry. by destruct (is_2xx status). Qed.

Lemma unlock_entry_status status pid :
  py_item (unlock_entry status pid) "status"
  = ret (PS (SBool (is_2xx status))).
Proof. unfold unlock_entry. by destruct (is_2xx status). Qed.

(** The answer to a lock check says that there is no lock: a JSON object
    whose 'data' is empty (or otherwise false). *)
Definition no_lock (r : response) : Prop :=
  ∃ js locks, body r = Some (PDict js) ∧ js !! "data" = Some locks
              ∧ truthy locks = false.

Lemma check_lock_no_lock api locked_pids dataset w :
  no_lock (server w (sent w) (locks_request GET api dataset)) →
  check_lock api locked_pids dataset w
  = (Return locked_pids, after_send w (locks_request GET api dataset)).
Proof.
  intros (js & locks & Hbody & Hdata & Hfalse). unfold check_lock.
  rewrite bind_send. unfold bind at 1, json. rewrite Hbody /=.
  unfold bind at 1, py_item. rewrite Hdata /=. by rewrite Hfalse.
Qed.

(** The dataset the first lock of an answer names. *)
Definition named_lock (r : response) : option string :=
  match body r with
  | Some (PDict js) =>
      match js !! "data" with
      | Some (PList (PDict lock :: _)) =>
          match lock !! "dataset" with
          | Some (PS (SStr pid)) => Some pid
          | _ => None
          end
      | _ => None
      end
  | _ => None
  end.

(** An answer to a lock check that the first loop of [unlock_datasets] can
    read: a JSON object whose 'data' is empty, or a list that begins with a
    lock naming its dataset. *)
Definition lock_answered (r : response) : Prop :=
  no_lock r ∨ is_Some (named_lock r).

(** The datasets the lock checks of [datasets] find locked, the checks
    starting after the requests of [log]. *)
Fixpoint found_locked (api : Api) (srv : list request → request → response)
    (log : list request) (datasets : list string) : list string :=
  match datasets with
  | [] => []
  | d :: rest =>
      let request := locks_request GET api d in
      option_list (named_lock (srv log request))
      ++ found_locked api srv (log ++ [request]) rest
  end.

Lemma no_lock_named r : no_lock r → named_lock r = None.
Proof.
  intros (js & locks & Hbody & Hdata & Hfalse). unfold named_lock.
  rewrite Hbody Hdata. by destruct locks as [| [|[]] |].
Qed.

Lemma check_lock_named api locked_pids dataset w pid :
  named_lock (server w (sent w) (locks_request GET api dataset)) = Some pid →
  check_lock api locked_pids dataset w
  = (Return (locked_pids ++ [pid]),
     after_send w (locks_request GET api dataset)).
Proof.
  unfold check_lock, named_lock. rewrite bind_send.
  destruct (body _) as [[| |js]|] eqn:Hbody; try done.
  destruct (js !! "data") as [[|[|[| |lock] rest]|]|] eqn:Hdata; try done.
  destruct (lock !! "dataset") as [[[| | | |s]| |]|] eqn:Hlock; try done.
  intros [= ->]. unfold bind at 1, json. rewrite Hbody /=.
  unfold bind at 1, py_item. rewrite Hdata /=.
  unfold bind at 1. simpl. unfold bind at 1. by rewrite Hlock.
Qed.

Lemma check_lock_answered api locked_pids dataset w :
  let r := server w (sent w) (locks_request GET api dataset) in
  lock_answered r →
  check_lock api locked_pids dataset w
  = (Return (locked_pids ++ option_list (named_lock r)),
     after_send w (locks_request GET api dataset)).
Proof.
  intros r [Hnone | [pid Hpid]].
  - rewrite (no_lock_named _ Hnone) /= app_nil_r.
    by apply check_lock_no_lock.
  - rewrite Hpid /=. by apply check_lock_named.
Qed.

Lemma check_locks_answered api datasets : ∀ acc w,
  (∀ log dataset, dataset ∈ datasets →
     lock_answered (server w log (locks_request GET api dataset))) →
  for_each datasets (check_lock api) acc w
  = (Return (acc ++ found_locked api (server w) (sent w) datasets),
     mkWorld (server w) (sent w ++ (locks_request GET api <$> datasets))
       (stdout w) (objects w)).
Proof.
  induction datasets as [|d datasets IH]; intros acc w Hanswered.
  - rewrite /= !app_nil_r. by destruct w.
  - cbn [for_each found_locked].
    erewrite bind_return;
      last by apply check_lock_answered, Hanswered; left.
    rewrite IH /=; first by rewrite -!app_assoc.
    intros log dataset Hin. apply Hanswered. by right.
Qed.

Lemma found_locked_length api srv datasets : ∀ log,
  (length (found_locked api srv log datasets) ≤ length datasets)%nat.
Proof.
  induction datasets as [|d datasets IH]; intros log; simpl; first done.
  rewrite length_app. specialize (IH (log ++ [locks_request GET api d])).
  destruct (named_lock _); simpl; lia.
Qed.

(** C3, amended: once the listing of the collection gave the identifiers
    [pids] of its N datasets,
    - [publish_datasets] sends one POST per dataset, in order, whatever the
      answers, and returns a record whose keys are the identifiers; when
      these are distinct it has exactly N entries, each made from the status
      of the answer to that dataset's own POST;
    - [unlock_datasets], when the answer to each lock check can be read (a
      JSON object whose 'data' is empty, or a list that begins with a lock
      naming its dataset), asks for the locks of each of the N datasets,
      then sends one DELETE per dataset found locked, whatever the answers
      to the DELETEs, and returns a record with one entry per locked dataset
      (the identifiers the locks name being distinct), not one per dataset:
      at most N entries, each made from the status of the answer to that
      dataset's own DELETE. *)
Theorem batch_results api dataverse_collection version w pids w1 :
  str_truthy dataverse_collection = true →
  collection_datasets api dataverse_collection w = (Return pids, w1) →
  (NoDup pids →
   ∃ errors,
     publish_datasets (Some api) dataverse_collection version w
     = (Return errors,
        mkWorld (server w1)
          (sent w1 ++ (publish_request api version <$> pids)) (stdout w1)
          (objects w1))
     ∧ size errors = length pids
     ∧ dom errors = list_to_set pids
     ∧ ∀ i pid, pids !! i = Some pid →
         errors !! pid
         = Some (publish_entry
                   (status_code
                      (response_of (publish_request api version) w1 pids i pid))
                   pid))
  ∧ (let locked := found_locked api (server w1) (sent w1) pids in
     let w2 := mkWorld (server w1)
                 (sent w1 ++ (locks_request GET api <$> pids)) (stdout w1)
                 (objects w1) in
     (∀ log dataset, dataset ∈ pids →
        lock_answered (server w1 log (locks_request GET api dataset))) →
     NoDup locked →
     ∃ errors,
       unlock_datasets (Some api) dataverse_collection w
       = (Return errors,
          mkWorld (server w2)
            (sent w2 ++ (locks_request DELETE api <$> locked)) (stdout w2)
            (objects w2))
       ∧ size errors = length locked
       ∧ (length locked ≤ length pids)%nat
       ∧ dom errors = list_to_set locked
       ∧ ∀ i pid, locked !! i = Some pid →
           errors !! pid
           = Some (unlock_entry
                     (status_code
                        (response_of (locks_request DELETE api) w2 locked i
                           pid))
                     pid)).
Proof.
  intros Hcoll Hlist. split.
  - intros Hnodup. unfold publish_datasets. rewrite Hcoll /=.
    rewrite (bind_return _ _ _ _ _ Hlist) publish_one_report.
    destruct (report_loop_distinct (publish_request api version) publish_entry
                pids w1 Hnodup) as (errors & Hrun & Hsize & Hdom & Hentry).
    by exists errors.
  - intros locked w2 Hanswered Hnodup. unfold unlock_datasets.
    rewrite Hcoll /=.
    rewrite (bind_return _ _ _ _ _ Hlist).
    rewrite (bind_return _ _ _ _ _
               (check_locks_answered api pids [] w1 Hanswered)).
    rewrite unlock_one_report.
    destruct (report_loop_distinct (locks_request DELETE api) unlock_entry
                locked w2 Hnodup) as (errors & Hrun & Hsize & Hdom & Hentry).
    exists errors. split; first done. split; first done.
    split; first apply found_locked_length. done.
Qed.

(** A collection of two datasets: publishing A is refused, B is locked. *)
Definition listed (doi : string) : pyval :=
  PDict (<["persistentUrl" := pstr ("https://doi.org/" +:+ doi)]> ∅).

Definition with_data (data : pyval) : option pyval :=
  Some (PDict (<["status" := pstr "OK"]> (<["data" := data]> ∅))).

Definition sample_repository : world :=
  mkWorld
    (λ _ r,
       match r with
       | GetDataverseContents _ _ =>
           mkResponse 200
             (with_data (PList [listed "10.5072/FK2/A"; listed "10.5072/FK2/B"]))
       | Http POST url _ _ =>
           mkResponse (if contains "FK2/A" url then 403 else 200) None
       | Http GET url _ _ =>
           mkResponse 200
             (with_data
                (if contains "FK2/B" url
                 then PList [PDict (<["dataset" := pstr "doi:10.5072/FK2/B"]> ∅)]
                 else PList []))
       | Http DELETE _ _ _ => mkResponse 200 None
       end)
    [] [] [].

(** Lists of distinct literals. *)
Ltac distinct :=
  repeat (apply NoDup_cons_2;
          [rewrite list_elem_of_In; simpl; intuition discriminate|]);
  apply NoDup_nil_2.

Lemma batch_results_witness :
  (∃ errors,
     fst (publish_datasets (Some sample_api) "hco" "major" sample_repository)
     = Return errors
     ∧ size errors = 2%nat
     ∧ errors !! "doi:10.5072/FK2/A"
       = Some (publish_entry 403 "doi:10.5072/FK2/A")
     ∧ errors !! "doi:10.5072/FK2/B"
       = Some (publish_entry 200 "doi:10.5072/FK2/B"))
  ∧ (∃ errors,
       unlock_datasets (Some sample_api) "hco" sample_repository
       = (Return errors,
          mkWorld (server sample_repository)
            [GetDataverseContents sample_api "hco";
             locks_request GET sample_api "doi:10.5072/FK2/A";
             locks_request GET sample_api "doi:10.5072/FK2/B";
             locks_request DELETE sample_api "doi:10.5072/FK2/B"]
            [] [])
       ∧ size errors = 1%nat
       ∧ errors !! "doi:10.5072/FK2/B"
         = Some (unlock_entry 200 "doi:10.5072/FK2/B")).
Proof.
  pose (pids := ["doi:10.5072/FK2/A"; "doi:10.5072/FK2/B"]).
  pose (w1 := after_send sample_repository
                (GetDataverseContents sample_api "hco")).
  destruct (batch_results sample_api "hco" "major" sample_repository pids w1)
    as [Hpublish Hunlock]; [reflexivity..|].
  split.
  - destruct Hpublish as (errors & Hrun & Hsize & _ & Hentry).
    { distinct. }
    exists errors. rewrite Hrun. split; first done. split; first done.
    split; [apply (Hentry 0%nat) | apply (Hentry 1%nat)]; reflexivity.
  - destruct Hunlock as (errors & Hrun & Hsize & _ & _ & Hentry).
    { intros log dataset Hin.
      apply elem_of_cons in Hin as [->|Hin].
      - left. eexists _, (PList []). by repeat split.
      - apply list_elem_of_singleton in Hin as ->. right. by eexists. }
    { change (NoDup ["doi:10.5072/FK2/B"]). distinct. }
    exists errors. split; first exact Hrun. split; first exact Hsize.
    apply (Hentry 0%nat). reflexivity.
Defined.

(** A collection of one dataset, which is not locked. *)
Definition unlocked_repository : world :=
  mkWorld
    (λ _ r,
       match r with
       | GetDataverseContents _ _ =>
           mkResponse 200 (with_data (PList [listed "10.5072/FK2/A"]))
       | Http _ _ _ _ => mkResponse 200 (with_data (PList []))
       end)
    [] [] [].

(** A listing that names one dataset twice. *)
Definition repeating_repository : world :=
  mkWorld
    (λ _ r,
       match r with
       | GetDataverseContents _ _ =>
           mkResponse 200
             (with_data (PList [listed "10.5072/FK2/A"; listed "10.5072/FK2/A"]))
       | Http _ _ _ _ => mkResponse 200 None
       end)
    [] [] [].

(** C3, as stated, fails: on a collection of one dataset that is not locked
    [unlock_datasets] returns no entry at all; and on a listing of two
    entries that name the same dataset [publish_datasets] returns one entry
    for the two. *)
Lemma batch_entries_not_one_per_dataset :
  (fst (collection_datasets sample_api "hco" unlocked_repository)
   = Return ["doi:10.5072/FK2/A"]
   ∧ fst (unlock_datasets (Some sample_api) "hco" unlocked_repository)
     = Return ∅)
  ∧ (fst (collection_datasets sample_api "hco" repeating_repository)
     = Return ["doi:10.5072/FK2/A"; "doi:10.5072/FK2/A"]
     ∧ ∃ errors,
         fst (publish_datasets (Some sample_api) "hco" "major"
                repeating_repository) = Return errors
         ∧ size errors = 1%nat).
Proof.
  split; first by vm_compute.
  split; first by vm_compute.
  eexists. split; first by vm_compute. by vm_compute.
Qed.

(** ** Invalid parameters *)

(** The world after a line was printed. *)
Definition after_print (w : world) (line : string) : world :=
  mkWorld (server w) (sent w) (stdout w ++ [(line, [])]) (objects w).

Lemma str_truthy_empty s : s = EmptyString → str_truthy s = false.
Proof. by intros ->. Qed.

Lemma dict_truthy_empty : dict_truthy ∅ = false.
Proof. done. Qed.

Section invalid_parameters.
Context `{PyDataverse} `{DVUploader} `{EasyDataverse D}.

Lemma create_dataset_metadata_invalid
    author affiliation contact email series_name df w :
  author = EmptyString ∨ affiliation = EmptyString ∨ contact = EmptyString
  ∨ email = EmptyString ∨ series_name = EmptyString ∨ df_empty df = true →
  create_dataset_metadata author affiliation contact email series_name df w
  = (Return ∅,
     after_print w "Error: One or more invalid parameter values").
Proof.
  intros Hbad. unfold create_dataset_metadata.
  assert (negb (str_truthy author) || negb (str_truthy affiliation)
          || negb (str_truthy contact) || negb (str_truthy email)
          || negb (str_truthy series_name) || df_empty df = true) as ->;
    last done.
  rewrite !orb_true_iff !negb_true_iff.
  destruct Hbad as [?|[?|[?|[?|[?|?]]]]]; auto 10 using str_truthy_empty.
Qed.

Lemma create_dataset_invalid (ds : option D) dataset_metadata w :
  ds = None ∨ dataset_metadata = ∅ →
  create_dataset ds dataset_metadata w = (Return (inl create_failed), w).
Proof.
  intros [-> | ->]; first done.
  unfold create_dataset. by destruct ds.
Qed.

Lemma pydataverse_create_dataset_invalid
    api dataverse_url dataset_metadata w :
  api = None ∨ dataset_metadata = ∅ →
  pydataverse_create_dataset api dataverse_url dataset_metadata w
  = (Return create_failed, w).
Proof.
  intros [-> | ->]; first done.
  unfold pydataverse_create_dataset. by destruct api.
Qed.

Lemma create_datafile_metadata_invalid
    df template_csv template_txt template_xml w :
  df_empty df = true ∨ template_csv = EmptyString
  ∨ template_txt = EmptyString →
  create_datafile_metadata df template_csv template_txt template_xml w
  = (Return empty_frame,
     after_print w "Error: One or more invalid parameters").
Proof.
  intros Hbad. unfold create_datafile_metadata.
  assert (df_empty df || negb (str_truthy template_csv)
          || negb (str_truthy template_txt) = true) as ->; last done.
  rewrite !orb_true_iff !negb_true_iff.
  destruct Hbad as [?|[?|?]]; auto using str_truthy_empty.
Qed.

Lemma python_dvuploader_invalid
    api dataverse_url dataset_pid data_directory metadata_df w :
  api = None ∨ dataverse_url = EmptyString ∨ dataset_pid = EmptyString
  ∨ data_directory = EmptyString ∨ df_empty metadata_df = true →
  python_dvuploader api dataverse_url dataset_pid data_directory
    metadata_df w
  = (Return (PS (SBool false)), w).
Proof.
  intros Hbad. unfold python_dvuploader.
  destruct api as [api|]; last done.
  assert (negb (str_truthy dataverse_url) || negb (str_truthy dataset_pid)
          || negb (str_truthy data_directory) || df_empty metadata_df
          = true) as ->; last done.
  rewrite !orb_true_iff !negb_true_iff.
  destruct Hbad as [[=]|[?|[?|[?|?]]]]; auto 10 using str_truthy_empty.
Qed.

Lemma publish_datasets_invalid api dataverse_collection version w :
  api = None ∨ dataverse_collection = EmptyString →
  publish_datasets api dataverse_collection version w
  = (Return invalid_parameter, w).
Proof.
  intros [-> | ->]; first done.
  unfold publish_datasets. by destruct api.
Qed.

Lemma unlock_datasets_invalid api dataverse_collection w :
  api = None ∨ dataverse_collection = EmptyString →
  unlock_datasets api dataverse_collection w
  = (Return invalid_parameter, w).
Proof.
  intros [-> | ->]; first done.
  unfold unlock_datasets. by destruct api.
Qed.
End invalid_parameters.

(** An uploader that evaluates a value to itself and uploads nothing, and a
    dataset model that keeps the calls made on it. *)
Definition idle_uploader : DVUploader :=
  {| py_eval := ret; dv_upload := λ _ _ _ _ _, ret () |}.

Definition recording : EasyDataverse (list (string * list pyval)) :=
  let note name args ds := ret (ds ++ [(name, args)]) in
  {| set_title v := note "title" [v];
     add_author name affiliation := note "add_author" [name; affiliation];
     add_ds_description v := note "add_ds_description" [v];
     add_dataset_contact name email := note "add_dataset_contact" [name; email];
     set_subject v := note "subject" [v];
     add_keyword v vocabulary uri := note "add_keyword" [v; vocabulary; uri];
     add_topic_classification v := note "add_topic_classification" [v];
     set_data_sources v := note "data_sources" [v];
     set_distribution_date v := note "distribution_date" [v];
     set_astro_object v := note "astro_object" [v];
     set_astro_facility v := note "astro_facility" [v];
     notna_array _ := ret true |}.

Definition sample_file_metadata : DataFrame pyval := mkDF
  [("filename", [pstr "a.csv"]);
   ("description", [pstr "TXT S1"]);
   ("mimetype", [pstr "text/csv"]);
   ("tags", [pstr "['Data']"])].

(** The failure values the specification names: an empty structure, or a
    dict whose status is False. *)
Definition empty_or_status_false (v : pyval) : bool :=
  match v with
  | PList [] => true
  | PDict d =>
      bool_decide (d = ∅)
      || match d !! "status" with
         | Some (PS (SBool false)) => true
         | _ => false
         end
  | _ => false
  end.

(** C6: the code departs from the claim where it reports.  Without an api
    [python_dvuploader] returns the bare value False, which is neither an
    empty structure nor a dict whose status is False, though its docstring
    announces a dict and the other functions return a dict or an empty
    structure.  And a table that is missing (None) is not reported by the
    builders: their validation itself raises AttributeError when it asks the
    value for [.empty]. *)
Lemma dvuploader_returns_bare_false :
  @python_dvuploader idle_uploader None "https://demo.dataverse.org"
     "doi:10.5072/FK2/A" "data" sample_file_metadata quiet_world
  = (Return (PS (SBool false)), quiet_world)
  ∧ empty_or_status_false (PS (SBool false)) = false
  ∧ Store.create_datafile_metadata (VS SNone) "CSV" "TXT" "XML" quiet_world
    = (Raise AttributeError, quiet_world)
  ∧ Store.create_dataset_metadata "A. Author" "Harvard" "C. Contact"
      "c@example.org" "Nova Aquilae" (VS SNone) quiet_world
    = (Raise AttributeError, quiet_world).
Proof. by repeat split. Qed.

(** X15: each function that validates its parameters answers an empty
    string for a string parameter it checks, an empty dict, an empty table,
    or None for the api (or the dataset model), by returning its failure
    value, without raising and without sending a request:
    [create_dataset_metadata] the empty record (after printing an error),
    [create_datafile_metadata] the empty table (after printing an error),
    [create_dataset] and [pydataverse_create_dataset] the record
    {'status': False, 'dataset_id': -1, 'dataset_pid': ''},
    [publish_datasets] and [unlock_datasets] the record
    {'status': False, 'message': 'Invalid parameter'},
    and [python_dvuploader] the value False. *)
Theorem invalid_parameters_reported
    `{PyDataverse} `{DVUploader} `{EasyDataverse D} :
  (∀ author affiliation contact email series_name df w,
     author = EmptyString ∨ affiliation = EmptyString ∨ contact = EmptyString
     ∨ email = EmptyString ∨ series_name = EmptyString ∨ df_empty df = true →
     create_dataset_metadata author affiliation contact email series_name df w
     = (Return ∅,
        after_print w "Error: One or more invalid parameter values"))
  ∧ (∀ (ds : option D) dataset_metadata w,
       ds = None ∨ dataset_metadata = ∅ →
       create_dataset ds dataset_metadata w
       = (Return (inl create_failed), w))
  ∧ (∀ api dataverse_url dataset_metadata w,
       api = None ∨ dataset_metadata = ∅ →
       pydataverse_create_dataset api dataverse_url dataset_metadata w
       = (Return create_failed, w))
  ∧ (∀ df template_csv template_txt template_xml w,
       df_empty df = true ∨ template_csv = EmptyString
       ∨ template_txt = EmptyString →
       create_datafile_metadata df template_csv template_txt template_xml w
       = (Return empty_frame,
          after_print w "Error: One or more invalid parameters"))
  ∧ (∀ api dataverse_url dataset_pid data_directory metadata_df w,
       api = None ∨ dataverse_url = EmptyString ∨ dataset_pid = EmptyString
       ∨ data_directory = EmptyString ∨ df_empty metadata_df = true →
       python_dvuploader api dataverse_url dataset_pid data_directory
         metadata_df w
       = (Return (PS (SBool false)), w))
  ∧ (∀ api dataverse_collection version w,
       api = None ∨ dataverse_collection = EmptyString →
       publish_datasets api dataverse_collection version w
       = (Return invalid_parameter, w))
  ∧ (∀ api dataverse_collection w,
       api = None ∨ dataverse_collection = EmptyString →
       unlock_datasets api dataverse_collection w
       = (Return invalid_parameter, w)).
Proof.
  split; first exact create_dataset_metadata_invalid.
  split; first exact create_dataset_invalid.
  split; first exact pydataverse_create_dataset_invalid.
  split; first exact create_datafile_metadata_invalid.
  split; first exact python_dvuploader_invalid.
  split; first exact publish_datasets_invalid.
  exact unlock_datasets_invalid.
Qed.

Lemma invalid_parameters_reported_witness :
  create_dataset_metadata "A. Author" EmptyString "C. Contact" "c@example.org"
    "Nova Aquilae" sample_inventory quiet_world
  = (Return ∅,
     after_print quiet_world "Error: One or more invalid parameter values")
  ∧ @create_dataset _ recording (Some []) ∅ quiet_world
    = (Return (inl create_failed), quiet_world)
  ∧ @pydataverse_create_dataset accepting None "histd" sample_metadata
      quiet_world
    = (Return create_failed, quiet_world)
  ∧ create_datafile_metadata sample_files EmptyString "TXT" "XML" quiet_world
    = (Return empty_frame,
       after_print quiet_world "Error: One or more invalid parameters")
  ∧ @python_dvuploader idle_uploader (Some sample_api)
      "https://demo.dataverse.org" EmptyString "data" sample_file_metadata
      quiet_world
    = (Return (PS (SBool false)), quiet_world)
  ∧ publish_datasets (Some sample_api) EmptyString "major" quiet_world
    = (Return invalid_parameter, quiet_world)
  ∧ unlock_datasets None "hco" quiet_world
    = (Return invalid_parameter, quiet_world).
Proof.
  destruct (@invalid_parameters_reported accepting idle_uploader _ recording)
    as (H1 & H2 & H3 & H4 & H5 & H6 & H7).
  split; first (apply H1; right; left; reflexivity).
  split; first (apply H2; right; reflexivity).
  split; first (apply H3; left; reflexivity).
  split; first (apply H4; right; left; reflexivity).
  split; first (apply H5; right; right; left; reflexivity).
  split; first (apply H6; right; reflexivity).
  apply H7; left; reflexivity.
Defined.



(** The values an object holds. *)
Definition values_of (o : object) : list value :=
  match o with
  | OList items => items
  | ODict entries => (map_to_list entries).*2
  | OFrame table => concat (df_cols table).*2
  end.

(** What can be reached from a value through the objects of a store. *)
Inductive reach (σ : list object) : value → nat → Prop :=
| reach_here l : reach σ (VRef l) l
| reach_into l o v l' :
    σ !! l = Some o → v ∈ values_of o → reach σ v l' → reach σ (VRef l) l'.

(** Tables of scalars: what an inventory read from a file holds. *)
Definition is_scalar (v : value) : Prop :=
  match v with VS _ => True | VRef _ => False end.

Definition scalar_frame (df : DataFrame value) : Prop :=
  Forall (λ c : string * list value, Forall is_scalar c.2) (df_cols df).

(** ** What a call makes is new

    [σ0] is the store when a builder is called.  During the call the store
    stays [good]: the objects of [σ0] are where and what they were, and the
    objects made since hold only scalars and references to objects made
    since. *)
Section fresh.
Variable σ0 : list object.

(** A scalar, or a reference to an object made since the call, the store
    having grown to [n] objects. *)
Definition ok (n : nat) (v : value) : Prop :=
  match v with
  | VS _ => True
  | VRef l => (length σ0 ≤ l < n)%nat
  end.

Definition closed (σ : list object) : Prop :=
  ∀ l o, (length σ0 ≤ l)%nat → σ !! l = Some o →
         Forall (ok (length σ)) (values_of o).

Definition good (w : world) : Prop :=
  σ0 `prefix_of` objects w ∧ closed (objects w).

(** [builds len m Q]: run in a good world of at least [len] objects, [m]
    leaves a good world, with no fewer objects, and a result that satisfies
    [Q] there. *)
Definition builds {A} (len : nat) (m : M A) (Q : nat → A → Prop) : Prop :=
  ∀ w, good w → (len ≤ length (objects w))%nat →
    good (snd (m w))
    ∧ (length (objects w) ≤ length (objects (snd (m w))))%nat
    ∧ ∀ a, fst (m w) = Return a → Q (length (objects (snd (m w)))) a.

Lemma ok_mono n n' v : (n ≤ n')%nat → ok n v → ok n' v.
Proof. destruct v; simpl; [done | lia]. Qed.

Lemma oks_mono n n' vs : (n ≤ n')%nat → Forall (ok n) vs → Forall (ok n') vs.
Proof.
  intros Hle Hvs. eapply Forall_impl; first done.
  intros v. by apply ok_mono.
Qed.

Lemma good_length w : good w → (length σ0 ≤ length (objects w))%nat.
Proof. intros [Hpre _]. by apply prefix_length. Qed.

Lemma builds_ret {A} len (a : A) (Q : nat → A → Prop) :
  (∀ n, (len ≤ n)%nat → Q n a) → builds len (ret a) Q.
Proof.
  intros HQ w Hgood Hlen. simpl. split; first done. split; first done.
  intros a' [= <-]. by apply HQ.
Qed.

Lemma builds_raise {A} len e (Q : nat → A → Prop) : builds len (raise e) Q.
Proof. intros w Hgood Hlen. by simpl. Qed.

Lemma builds_bind {A B} len (m : M A) (k : A → M B) Q1 Q2 :
  builds len m Q1 →
  (∀ a n, (len ≤ n)%nat → Q1 n a → builds n (k a) Q2) →
  builds len (bind m k) Q2.
Proof.
  intros Hm Hk w Hgood Hlen. destruct (Hm w Hgood Hlen) as (Hg1 & Hl1 & HQ1).
  unfold bind. destruct (m w) as [[a|e] w1]; simpl in *; last done.
  destruct (Hk a (length (objects w1)) ltac:(lia) (HQ1 a eq_refl) w1 Hg1
              ltac:(lia)) as (Hg2 & Hl2 & HQ2).
  split; first done. split; [lia | done].
Qed.

Lemma builds_weaken {A} len (m : M A) (Q Q' : nat → A → Prop) :
  builds len m Q → (∀ n a, (len ≤ n)%nat → Q n a → Q' n a) →
  builds len m Q'.
Proof.
  intros Hm HQ w Hgood Hlen. destruct (Hm w Hgood Hlen) as (Hg & Hl & Hq).
  split; first done. split; first done.
  intros a Ha. apply HQ; [lia | by apply Hq].
Qed.

(** Computations that leave the store alone. *)
Definition still {A} (m : M A) : Prop := ∀ w, objects (snd (m w)) = objects w.

Lemma builds_still {A} len (m : M A) (Q : nat → A → Prop) :
  still m →
  (∀ w a, good w → fst (m w) = Return a → Q (length (objects w)) a) →
  builds len m Q.
Proof.
  intros Hstill HQ w Hgood Hlen. specialize (Hstill w).
  unfold good. rewrite Hstill. split; first done. split; first done.
  intros a Ha. by apply HQ.
Qed.

Lemma still_print fmt args : still (print_fmt fmt args).
Proof. done. Qed.

Lemma builds_print len fmt args :
  builds len (print_fmt fmt args) (λ _ _, True).
Proof. by apply builds_still. Qed.

Lemma still_quiet {A} (m : M A) : quiet m → still m.
Proof. intros Hq w. by rewrite Hq. Qed.

(** The values of a dict written as a literal are those written. *)
Lemma values_of_dict n (entries : list (string * value)) :
  Forall (ok n) entries.*2 →
  Forall (ok n) (values_of (ODict (list_to_map entries))).
Proof.
  intros Hok. apply Forall_forall. intros v Hv. simpl in Hv.
  apply list_elem_of_fmap in Hv as ([k v'] & -> & Hkv).
  apply elem_of_map_to_list, elem_of_list_to_map_2 in Hkv.
  apply (proj1 (Forall_forall _ _) Hok).
  apply list_elem_of_fmap. by exists (k, v').
Qed.

Lemma builds_alloc len o :
  (∀ n, (len ≤ n)%nat → Forall (ok n) (values_of o)) →
  builds len (Store.alloc o) ok.
Proof.
  intros Ho w Hgood Hlen. pose proof (good_length w Hgood) as Hn0.
  destruct Hgood as [Hpre Hclosed]. simpl.
  split; last split.
  - split; first by apply prefix_app_r.
    intros l o' Hl Hlook. rewrite length_app /=.
    apply lookup_app_Some in Hlook as [Hold|[Hge Hnew]].
    + eapply oks_mono; last by apply (Hclosed l). lia.
    + apply list_lookup_singleton_Some in Hnew as [_ <-]. apply Ho. lia.
  - rewrite length_app /=. lia.
  - intros a [= <-]. simpl. rewrite length_app /=. lia.
Qed.

Lemma builds_new_list len items :
  Forall (ok len) items → builds len (Store.new_list items) ok.
Proof.
  intros Hok. apply builds_alloc. intros n Hn. by eapply oks_mono.
Qed.

Lemma builds_new_dict len entries :
  Forall (ok len) entries.*2 → builds len (Store.new_dict entries) ok.
Proof.
  intros Hok. apply builds_alloc. intros n Hn.
  apply values_of_dict. by eapply oks_mono.
Qed.

(** Looking into an object made since the call. *)
Lemma builds_deref len n v :
  ok n v →
  builds len (Store.deref v) (λ n o, Forall (ok n) (values_of o)).
Proof.
  intros Hv. apply builds_still.
  - intros w. unfold Store.deref. by repeat case_match.
  - intros w o [_ Hclosed]. unfold Store.deref.
    destruct v as [s|l]; first done. simpl in Hv.
    destruct (objects w !! l) as [o'|] eqn:Hl; last done.
    intros [= <-]. apply (Hclosed l); [lia | done].
Qed.

Lemma builds_deref_list len n v :
  ok n v → builds len (Store.deref_list v) (λ n items, Forall (ok n) items).
Proof.
  intros Hv. unfold Store.deref_list.
  eapply builds_bind; first by eapply builds_deref.
  intros o n' Hn' Ho. destruct o; try apply builds_raise.
  apply builds_ret. intros n'' Hn''. by eapply oks_mono.
Qed.

(** Updating an object made since the call. *)
Lemma builds_update len v o :
  ok len v → Forall (ok len) (values_of o) →
  builds len (Store.update v o) (λ _ _, True).
Proof.
  intros Hv Ho w Hgood Hlen. pose proof (good_length w Hgood) as Hn0.
  destruct Hgood as [Hpre Hclosed]. unfold Store.update.
  destruct v as [s|l]; first done. simpl in Hv.
  destruct (decide (l < length (objects w))%nat) as [Hl|Hl]; last done.
  simpl. rewrite length_insert. split; last done. split.
  - destruct Hpre as [rest Hrest]. rewrite Hrest.
    rewrite insert_app_r_alt; last lia. by apply prefix_app_r.
  - intros l' o' Hl' Hlook. rewrite length_insert.
    destruct (decide (l = l')) as [<-|Hne].
    + rewrite list_lookup_insert_eq // in Hlook. injection Hlook as <-.
      eapply oks_mono; last done. lia.
    + rewrite list_lookup_insert_ne // in Hlook. by apply (Hclosed l').
Qed.

Lemma builds_list_extend len l items :
  ok len l → Forall (ok len) items →
  builds len (Store.list_extend l items) (λ _ _, True).
Proof.
  intros Hl Hitems. unfold Store.list_extend.
  eapply builds_bind; first by eapply builds_deref_list.
  intros old n Hn Hold. apply builds_update; first by eapply ok_mono.
  simpl. apply Forall_app. split; [done | by eapply oks_mono].
Qed.

Lemma builds_list_append len l x :
  ok len l → ok len x → builds len (Store.list_append l x) (λ _ _, True).
Proof. intros Hl Hx. apply builds_list_extend; [done | by constructor]. Qed.

Lemma builds_for_list {A B} len (l : list A) (f : A → M B)
    (P : nat → B → Prop) :
  (∀ n n' b, (n ≤ n')%nat → P n b → P n' b) →
  (∀ x n, x ∈ l → (len ≤ n)%nat → builds n (f x) P) →
  builds len (Store.for_list l f) (λ n ys, Forall (P n) ys).
Proof.
  intros Hmono. revert len.
  induction l as [|x l IH]; intros len Hf; simpl.
  - apply builds_ret. by constructor.
  - eapply builds_bind; first by apply Hf; [left | lia].
    intros y n Hn Hy. eapply builds_bind.
    { apply IH. intros x' n' Hx' Hn'. apply Hf; [by right | lia]. }
    intros ys n' Hn' Hys. apply builds_ret. intros n'' Hn''.
    constructor; first by apply (Hmono n n''); [lia | done].
    eapply Forall_impl; first exact Hys.
    intros b. apply Hmono. lia.
Qed.

Lemma builds_for_each {A} len (l : list A) (body : unit → A → M unit) :
  (∀ x n, x ∈ l → (len ≤ n)%nat → builds n (body () x) (λ _ _, True)) →
  builds len (for_each l body ()) (λ _ _, True).
Proof.
  revert len. induction l as [|x l IH]; intros len Hbody; simpl.
  - by apply builds_ret.
  - eapply builds_bind; first by apply Hbody; [left | lia].
    intros [] n Hn _. apply IH. intros x' n' Hx' Hn'.
    apply Hbody; [by right | lia].
Qed.
End fresh.

Section builders.
Variable σ0 : list object.

Lemma ok_scalar n v : is_scalar v → ok σ0 n v.
Proof. by destruct v. Qed.

Lemma oks_vstr n (l : list string) : Forall (ok σ0 n) (Store.vstr <$> l).
Proof. apply Forall_fmap, Forall_forall. by intros s _. Qed.

(** Reading the inventory, an object of [σ0], gives its table. *)
Lemma builds_deref_frame len l df :
  σ0 !! l = Some (OFrame df) →
  builds σ0 len (Store.deref_frame (VRef l)) (λ _ df', df' = df).
Proof.
  intros Hl. apply builds_still.
  - intros w. unfold Store.deref_frame, Store.deref, bind. simpl.
    by destruct (objects w !! l) as [[]|].
  - intros w df' [[rest Hpre] _].
    unfold Store.deref_frame, Store.deref, bind. simpl.
    rewrite Hpre lookup_app_l; last by eapply lookup_lt_Some.
    rewrite Hl /=. by intros [= <-].
Qed.

Lemma assoc_elem_of {A} c (l : list (string * A)) a :
  assoc c l = Some a → (c, a) ∈ l.
Proof.
  induction l as [|[k x] l IH]; simpl; first done.
  destruct (String.eqb_spec k c) as [->|Hne].
  - intros [= ->]. by left.
  - intros Ha. right. by apply IH.
Qed.

Lemma quiet_df_at {A} (df : DataFrame A) i c : quiet (df_at df i c).
Proof. unfold df_at. auto with quiet. Qed.

Lemma quiet_row_item {A} (row : Series A) c : quiet (row_item row c).
Proof. unfold row_item. auto with quiet. Qed.

Lemma builds_df_at len df i c :
  scalar_frame df → builds σ0 len (df_at df i c) (ok σ0).
Proof.
  intros Hdf. apply builds_still; first apply still_quiet, quiet_df_at.
  intros w v _. unfold df_at.
  destruct (assoc c (df_cols df)) as [cells|] eqn:Hc; last done.
  destruct (cells !! i) as [v'|] eqn:Hi; last done.
  intros [= <-]. apply ok_scalar.
  apply assoc_elem_of in Hc.
  pose proof (proj1 (Forall_forall _ _) Hdf _ Hc) as Hcells. simpl in Hcells.
  apply (proj1 (Forall_forall _ _) Hcells). by eapply list_elem_of_lookup_2.
Qed.

Lemma builds_row_item len df row c :
  scalar_frame df → row ∈ iterrows df →
  builds σ0 len (row_item row c) (ok σ0).
Proof.
  intros Hdf Hrow. apply builds_still; first apply still_quiet, quiet_row_item.
  intros w v _. unfold row_item.
  destruct (assoc c row) as [v'|] eqn:Hc; last done.
  intros [= <-]. apply ok_scalar. apply assoc_elem_of in Hc.
  unfold iterrows in Hrow.
  apply list_elem_of_fmap in Hrow as (i & -> & _). unfold row_at in Hc.
  apply list_elem_of_omap in Hc as ([k cells] & Hcol & Hcell).
  simpl in Hcell. destruct (cells !! i) as [x|] eqn:Hi; last done.
  injection Hcell as <- <-.
  pose proof (proj1 (Forall_forall _ _) Hdf _ Hcol) as Hcells.
  apply (proj1 (Forall_forall _ _) Hcells). by eapply list_elem_of_lookup_2.
Qed.

Lemma builds_quiet {A} len (m : M A) :
  quiet m → builds σ0 len m (λ _ _, True).
Proof. intros Hm. apply builds_still; [by apply still_quiet | done]. Qed.

Lemma quiet_str_of v : quiet (Store.str_of v).
Proof. unfold Store.str_of. auto with quiet. Qed.

Lemma quiet_notna_of v : quiet (Store.notna_of v).
Proof. unfold Store.notna_of. auto with quiet. Qed.

Lemma quiet_str_add_of a b : quiet (Store.str_add_of a b).
Proof. unfold Store.str_add_of. auto 8 with quiet. Qed.

Lemma builds_split_if_str_of len v :
  builds σ0 len (Store.split_if_str_of v) (ok σ0).
Proof.
  unfold Store.split_if_str_of.
  destruct v; apply builds_new_list; [apply oks_vstr | constructor].
Qed.
End builders.

(** Goals about values being new: scalars are, and what was established at
    a smaller store size still holds. *)
Ltac solve_ok :=
  simpl;
  repeat lazymatch goal with
    | |- Forall _ (_ :: _) => apply Forall_cons; split
    | |- Forall _ [] => apply Forall_nil
    end;
  lazymatch goal with
  | |- ok _ _ (VS _) => exact I
  | |- ok _ _ (Store.vstr _) => exact I
  | |- ok _ _ _ => eapply ok_mono; [|eassumption]; lia
  | |- Forall (ok _ _) (Store.vstr <$> _) => apply oks_vstr
  | |- Forall (ok _ _) _ => eapply oks_mono; [|eassumption]; lia
  | |- True => exact I
  | _ => idtac
  end.

Section entries.
Variable σ0 : list object.

Lemma builds_keyword_entry_of len kw :
  ok σ0 len kw → builds σ0 len (Store.keyword_entry_of kw) (ok σ0).
Proof.
  intros Hkw. unfold Store.keyword_entry_of. apply builds_new_dict. solve_ok.
Qed.

Lemma builds_topic_entry_of len top :
  ok σ0 len top → builds σ0 len (Store.topic_entry_of top) (ok σ0).
Proof.
  intros Htop. unfold Store.topic_entry_of. apply builds_new_dict. solve_ok.
Qed.

Lemma builds_entries len items (f : value → M value) :
  Forall (ok σ0 len) items →
  (∀ n x, ok σ0 n x → builds σ0 n (f x) (ok σ0)) →
  builds σ0 len (Store.for_list items f) (λ n ys, Forall (ok σ0 n) ys).
Proof.
  intros Hitems Hf. apply builds_for_list; first by apply ok_mono.
  intros x n Hx Hn. apply Hf.
  eapply ok_mono; first done. by apply (proj1 (Forall_forall _ _) Hitems).
Qed.
End entries.

(** One step through a program of the builders. *)
Ltac build_prim :=
  lazymatch goal with
  | |- builds _ _ (print_fmt _ _) _ => apply builds_print
  | |- builds _ _ (print _) _ => apply builds_print
  | |- builds _ _ (df_at _ _ _) _ => apply builds_df_at; assumption
  | |- builds _ _ (row_item _ _) _ => eapply builds_row_item; eassumption
  | |- builds _ _ (Store.str_of _) _ => apply builds_quiet, quiet_str_of
  | |- builds _ _ (Store.notna_of _) _ => apply builds_quiet, quiet_notna_of
  | |- builds _ _ (Store.str_add_of _ _) _ =>
      apply builds_quiet, quiet_str_add_of
  | |- builds _ _ (Store.split_if_str_of _) _ => apply builds_split_if_str_of
  | |- builds _ _ (Store.deref_list _) _ =>
      eapply builds_deref_list; eassumption
  | |- builds _ _ (Store.for_list _ Store.keyword_entry_of) _ =>
      eapply builds_entries;
      [eassumption | intros; by apply builds_keyword_entry_of]
  | |- builds _ _ (Store.for_list _ Store.topic_entry_of) _ =>
      eapply builds_entries;
      [eassumption | intros; by apply builds_topic_entry_of]
  | |- builds _ _ (Store.new_list _) _ => apply builds_new_list; solve_ok
  | |- builds _ _ (Store.new_dict _) _ => apply builds_new_dict; solve_ok
  | |- builds _ _ (Store.alloc _) _ => apply builds_alloc; intros; solve_ok
  | |- builds _ _ (Store.list_append _ _) _ =>
      apply builds_list_append; solve_ok
  | |- builds _ _ (Store.list_extend _ _) _ =>
      apply builds_list_extend; solve_ok
  | |- builds _ _ (ret _) _ =>
      first [ by apply (builds_ret _ _ _ (λ _ _, True))
            | apply builds_ret; intros; solve_ok ]
  | |- builds _ _ (raise _) _ => apply builds_raise
  end.

Ltac build :=
  lazymatch goal with
  | |- builds _ _ (bind (if ?b then _ else _) _) _ => destruct b; build
  | |- builds _ _ (bind _ _) _ =>
      eapply builds_bind; [build | intros ? ? ? ?; cbv beta in *; build]
  | |- builds _ _ (if ?b then _ else _) _ => destruct b; build
  | |- builds _ _ (match ?x with _ => _ end) _ => destruct x; build
  | |- builds _ _ _ _ => build_prim
  end.

Section built.
Variable σ0 : list object.

Lemma builds_create_dataset_metadata
    author affiliation contact email series_name l df :
  σ0 !! l = Some (OFrame df) → scalar_frame df →
  builds σ0 (length σ0)
    (Store.create_dataset_metadata author affiliation contact email
       series_name (VRef l))
    (ok σ0).
Proof.
  intros Hl Hdf. unfold Store.create_dataset_metadata.
  destruct (_ || _); first build.
  eapply builds_bind; first by apply builds_deref_frame.
  intros inventory n Hn ->.
  destruct (df_empty df); first build.
  destruct (find _ _); first build.
  build.
Qed.

Lemma builds_frame_of_lists len cols :
  Forall (ok σ0 len) cols.*2 →
  builds σ0 len (Store.frame_of_lists cols) (ok σ0).
Proof.
  intros Hcols. unfold Store.frame_of_lists.
  eapply builds_bind; first by apply builds_new_dict.
  intros _ n Hn _. eapply builds_bind.
  { apply (builds_for_list σ0 n cols _
             (λ n (c : string * list value), Forall (ok σ0 n) c.2)).
    - intros n1 n2 c Hle. by apply oks_mono.
    - intros c n1 Hc Hn1.
      assert (ok σ0 n1 c.2) as Hok.
      { eapply ok_mono; last eapply (proj1 (Forall_forall _ _) Hcols).
        - lia.
        - apply list_elem_of_fmap. by exists c. }
      build. }
  intros columns n1 Hn1 Hcolumns. cbv beta in Hcolumns.
  destruct (rectangular _); last apply builds_raise.
  apply builds_alloc. intros n2 Hn2. simpl.
  apply Forall_concat, Forall_fmap.
  eapply Forall_impl; first done.
  intros c. simpl. by apply oks_mono.
Qed.

Lemma builds_datafile_row len template_txt template_xml lists df row :
  scalar_frame df → row ∈ iterrows df →
  ok σ0 len (Store.filenames_ref lists) →
  ok σ0 len (Store.file_types_ref lists) →
  ok σ0 len (Store.descriptions_ref lists) →
  ok σ0 len (Store.tags_ref lists) →
  ok σ0 len (Store.mime_types_ref lists) →
  builds σ0 len (Store.datafile_row template_txt template_xml lists row)
    (λ _ _, True).
Proof.
  intros Hdf Hrow H1 H2 H3 H4 H5. unfold Store.datafile_row. build.
Qed.

Lemma builds_create_datafile_metadata
    template_csv template_txt template_xml l df :
  σ0 !! l = Some (OFrame df) → scalar_frame df →
  builds σ0 (length σ0)
    (Store.create_datafile_metadata (VRef l) template_csv template_txt
       template_xml)
    (ok σ0).
Proof.
  intros Hl Hdf. unfold Store.create_datafile_metadata.
  eapply builds_bind; first by apply builds_deref_frame.
  intros inventory n Hn ->.
  destruct (_ || _ || _); first build.
  destruct (_ || _ || _ || _); first build.
  do 5 (eapply builds_bind; [build_prim | intros ? ? ? ?]).
  eapply builds_bind.
  { apply builds_for_each. intros row n' Hrow Hn'.
    eapply builds_datafile_row; simpl; try done; solve_ok. }
  intros _ n' Hn' _. apply builds_frame_of_lists. solve_ok.
Qed.
End built.

(** Whatever is reached from a value made during the call was made during
    the call, in any later store that keeps the objects of the call. *)
Lemma reach_fresh σ0 σ1 σ v l' :
  σ0 `prefix_of` σ1 → closed σ0 σ1 → σ1 `prefix_of` σ →
  ok σ0 (length σ1) v → reach σ v l' →
  (length σ0 ≤ l' < length σ1)%nat.
Proof.
  intros Hpre Hclosed [rest ->] Hv Hreach.
  induction Hreach as [l|l o v l' Hl Hin _ IH]; first done.
  simpl in Hv. rewrite lookup_app_l in Hl; last lia.
  apply IH. apply (proj1 (Forall_forall _ _) (Hclosed l o ltac:(lia) Hl)).
  done.
Qed.

(** ** The builders share nothing *)

(** A call of one of the two builders. *)
Inductive builder_call :=
| DatasetMetadata (author affiliation contact email series_name : string)
    (series_inventory : value)
| DatafileMetadata (inventory_df : value)
    (template_csv template_txt template_xml : string).

Definition inventory_of (c : builder_call) : value :=
  match c with
  | DatasetMetadata _ _ _ _ _ series_inventory => series_inventory
  | DatafileMetadata inventory_df _ _ _ => inventory_df
  end.

Definition run_builder (c : builder_call) : M value :=
  match c with
  | DatasetMetadata author affiliation contact email series_name
      series_inventory =>
      Store.create_dataset_metadata author affiliation contact email
        series_name series_inventory
  | DatafileMetadata inventory_df template_csv template_txt template_xml =>
      Store.create_datafile_metadata inventory_df template_csv template_txt
        template_xml
  end.

(** The call is given a table of the store, holding scalars. *)
Definition table_in (σ : list object) (c : builder_call) : Prop :=
  ∃ l df, inventory_of c = VRef l ∧ σ !! l = Some (OFrame df)
          ∧ scalar_frame df.

Lemma good_start w : good (objects w) w.
Proof.
  split; first done. intros l o Hl Hlook.
  apply lookup_lt_Some in Hlook. lia.
Qed.

Lemma builds_run_builder c w :
  table_in (objects w) c →
  builds (objects w) (length (objects w)) (run_builder c) (ok (objects w)).
Proof.
  intros (l & df & Hinv & Hl & Hdf). destruct c; simpl in *; subst.
  - by eapply builds_create_dataset_metadata.
  - by eapply builds_create_datafile_metadata.
Qed.

(** C7, amended: a builder called on an inventory of the store whose cells
    are scalars leaves every object that was there as it was, the inventory
    included; what it returns is made of objects created by the call, so
    that it has no object in common with the store before the call, nor with
    the record a later call returns. *)
Theorem builders_share_nothing c w :
  table_in (objects w) c →
  let w1 := snd (run_builder c w) in
  (∀ l o, objects w !! l = Some o → objects w1 !! l = Some o)
  ∧ (∀ v, fst (run_builder c w) = Return v →
       (∀ σ l, objects w1 `prefix_of` σ → reach σ v l →
               (length (objects w) ≤ l < length (objects w1))%nat)
       ∧ ∀ c' w' v' l,
           objects w1 `prefix_of` objects w' → table_in (objects w') c' →
           fst (run_builder c' w') = Return v' →
           reach (objects (snd (run_builder c' w'))) v l →
           reach (objects (snd (run_builder c' w'))) v' l → False).
Proof.
  intros Htable w1.
  destruct (builds_run_builder c w Htable w (good_start w) ltac:(lia))
    as ([Hpre Hclosed] & Hlen & Hok).
  fold w1 in Hpre, Hclosed, Hlen, Hok. split.
  - intros l o Hl. destruct Hpre as [rest ->]. by apply lookup_app_l_Some.
  - intros v Hv. specialize (Hok v Hv).
    assert (∀ σ l, objects w1 `prefix_of` σ → reach σ v l →
                   (length (objects w) ≤ l < length (objects w1))%nat)
      as Hfresh.
    { intros σ l Hσ Hreach. by eapply reach_fresh. }
    split; first done.
    intros c' w' v' l Hpre' Htable' Hv' Hreach Hreach'.
    destruct (builds_run_builder c' w' Htable' w' (good_start w') ltac:(lia))
      as ([Hpre2 Hclosed2] & Hlen2 & Hok2).
    specialize (Hok2 v' Hv').
    pose proof (reach_fresh _ _ _ _ _ Hpre2 Hclosed2 (reflexivity _) Hok2
                  Hreach') as Hnew.
    assert (objects w1 `prefix_of` objects (snd (run_builder c' w')))
      as Hlater by by etrans.
    pose proof (Hfresh _ _ Hlater Hreach) as Hold.
    apply prefix_length in Hpre'. lia.
Qed.

(** A store holding the two sample inventories. *)
Definition frame_value (df : DataFrame scalar) : DataFrame value :=
  mkDF ((λ c : string * list scalar, (c.1, VS <$> c.2)) <$> df_cols df).

Definition sample_store : world :=
  mkWorld (λ _ _, mkResponse 200 None) [] []
    [OFrame (frame_value sample_inventory); OFrame (frame_value sample_files)].

Definition sample_call : builder_call :=
  DatasetMetadata "A. Author" "Harvard" "C. Contact" "c@example.org"
    "Nova Aquilae" (VRef 0).

Lemma builders_share_nothing_witness :
  let w1 := snd (run_builder sample_call sample_store) in
  (∀ l o, objects sample_store !! l = Some o → objects w1 !! l = Some o)
  ∧ (∀ v, fst (run_builder sample_call sample_store) = Return v →
       (∀ σ l, objects w1 `prefix_of` σ → reach σ v l →
               (length (objects sample_store) ≤ l < length (objects w1))%nat)
       ∧ ∀ c' w' v' l,
           objects w1 `prefix_of` objects w' → table_in (objects w') c' →
           fst (run_builder c' w') = Return v' →
           reach (objects (snd (run_builder c' w'))) v l →
           reach (objects (snd (run_builder c' w'))) v' l → False).
Proof.
  apply (builders_share_nothing sample_call sample_store).
  exists 0%nat, (frame_value sample_inventory).
  split; first reflexivity. split; first reflexivity.
  repeat constructor.
Defined.

(** A store whose inventory holds a container: the url cell of the first row
    is a list, object 0 of the store. *)
Definition mirrors : object :=
  OList [VS (SStr "https://example.org/card12");
         VS (SStr "https://mirror.example.org/card12")].

Definition inventory_with_list : DataFrame value := mkDF
  [("series_name", [VS (SStr "Nova Aquilae")]);
   ("volume_title", [VS (SStr "Announcement Cards")]);
   ("card_number", [VS (SInt 12)]);
   ("contributor", [VS (SStr "H. Shapley")]);
   ("all_observations", [VS (SStr "Nova Aquilae")]);
   ("card_date_year", [VS (SInt 1926)]);
   ("card_date_month", [VS (SInt 5)]);
   ("card_date_day", [VS SNaN]);
   ("subjects", [VS (SStr "Novae")]);
   ("topic_class", [VS SNaN]);
   ("url", [VRef 0])].

Definition store_with_list : world :=
  mkWorld (λ _ _, mkResponse 200 None) [] []
    [mirrors; OFrame inventory_with_list].

Definition call_with_list : builder_call :=
  DatasetMetadata "A. Author" "Harvard" "C. Contact" "c@example.org"
    "Nova Aquilae" (VRef 1).

(** The store after a first and after a second call on that inventory. *)
Definition after_first_call : world :=
  snd (run_builder call_with_list store_with_list).

Definition after_second_call : world :=
  snd (run_builder call_with_list after_first_call).

(** A decision procedure for [reach], looking [fuel] objects deep. *)
Fixpoint reachable (fuel : nat) (σ : list object) (v : value) (l : nat)
  : bool :=
  match v with
  | VS _ => false
  | VRef l0 =>
      bool_decide (l0 = l)
      || match fuel with
         | O => false
         | S fuel' =>
             match σ !! l0 with
             | Some o => existsb (λ v', reachable fuel' σ v' l) (values_of o)
             | None => false
             end
         end
  end.

Lemma reachable_reach fuel σ : ∀ v l,
  reachable fuel σ v l = true → reach σ v l.
Proof.
  induction fuel as [|fuel IH]; intros [s|l0] l; simpl; try done.
  - rewrite orb_false_r. intros ->%bool_decide_eq_true. constructor.
  - intros [->%bool_decide_eq_true | Hinto]%orb_true_iff; first constructor.
    destruct (σ !! l0) as [o|] eqn:Hl0; last done.
    apply existsb_exists in Hinto as (v' & Hin%list_elem_of_In & Hv').
    eapply reach_into; [done.. | by apply IH].
Qed.

(** C7, as stated, fails: on an inventory whose url cell is a list, the
    record of a first call and the record of a second call both hold that
    very list, an object of the store from before the calls, which the
    inventory holds too: a change made to it through one record shows in the
    other. *)
Lemma container_cell_is_shared :
  objects store_with_list !! 0%nat = Some mirrors
  ∧ fst (run_builder call_with_list store_with_list) = Return (VRef 18)
  ∧ fst (run_builder call_with_list after_first_call) = Return (VRef 35)
  ∧ reach (objects after_second_call) (VRef 18) 0
  ∧ reach (objects after_second_call) (VRef 35) 0
  ∧ reach (objects after_second_call) (VRef 1) 0.
Proof.
  split; first done. split; first by vm_compute.
  split; first by vm_compute.
  repeat split; apply (reachable_reach 2); by vm_compute.
Qed.

(** ** The two embeddings side by side

    Read back from the store, what the builders over references return on
    the sample inventories is what the builders over values return. *)
Fixpoint reify (fuel : nat) (σ : list object) (v : value) : option pyval :=
  match v with
  | VS s => Some (PS s)
  | VRef l =>
      match fuel with
      | O => None
      | S fuel' =>
          match σ !! l with
          | Some (OList items) => PList <$> mapM (reify fuel' σ) items
          | Some (ODict entries) =>
              PDict ∘ list_to_map
              <$> mapM (λ kv : string * value,
                          pair kv.1 <$> reify fuel' σ kv.2)
                       (map_to_list entries)
          | _ => None
          end
      end
  end.

Definition reify_frame (fuel : nat) (σ : list object) (v : value)
  : option (DataFrame pyval) :=
  match v with
  | VRef l =>
      match σ !! l with
      | Some (OFrame table) =>
          mkDF <$> mapM (λ c : string * list value,
                           pair c.1 <$> mapM (reify fuel σ) c.2)
                        (df_cols table)
      | _ => None
      end
  | VS _ => None
  end.

Example dataset_metadata_agree :
  fst (run_builder sample_call sample_store) = Return (VRef 19)
  ∧ length (objects (snd (run_builder sample_call sample_store))) = 20%nat
  ∧ (r' ← reify 3 (objects (snd (run_builder sample_call sample_store)))
            (VRef 19);
     match r' with PDict d => Some (map_to_list d) | _ => None end)
    = match fst (create_dataset_metadata "A. Author" "Harvard" "C. Contact"
                   "c@example.org" "Nova Aquilae" sample_inventory
                   quiet_world) with
      | Return d => Some (map_to_list d)
      | Raise _ => None
      end.
Proof. split; first by vm_compute. split; by vm_compute. Qed.

Example datafile_metadata_agree :
  let '(r, w1) :=
    Store.create_datafile_metadata (VRef 1) "CSV" "TXT" "XML" sample_store in
  r = Return (VRef 16)
  ∧ Return <$> reify_frame 2 (objects w1) (VRef 16)
    = Some (fst (create_datafile_metadata sample_files "CSV" "TXT" "XML"
                   quiet_world))
  ∧ objects w1 !! 1%nat = Some (OFrame (frame_value sample_files)).
Proof. vm_compute. done. Qed.

(** * More of the code *)

(** ** Splitting and joining *)

(** [sep.join(pieces)] *)
Definition join (sep : string) (pieces : list string) : string :=
  String.concat sep pieces.

(** [sep in s] *)
Fixpoint occurs (sep s : string) : bool :=
  String.prefix sep s
  || match s with
     | EmptyString => false
     | String _ s' => occurs sep s'
     end.

Fixpoint drop_chars (k : nat) (s : string) : string :=
  match k, s with
  | O, _ => s
  | S k', String _ s' => drop_chars k' s'
  | S _, EmptyString => EmptyString
  end.

Lemma append_cons x (a b : string) : String x a +:+ b = String x (a +:+ b).
Proof. done. Qed.

Lemma append_assoc (a b c : string) : (a +:+ b) +:+ c = a +:+ (b +:+ c).
Proof.
  induction a as [|x a IH]; first done. by rewrite !append_cons IH.
Qed.

Lemma append_empty_r (a : string) : a +:+ EmptyString = a.
Proof. induction a as [|x a IH]; first done. by rewrite append_cons IH. Qed.

Lemma length_append (a b : string) :
  String.length (a +:+ b) = (String.length a + String.length b)%nat.
Proof.
  induction a as [|x a IH]; first done. by rewrite append_cons /= IH.
Qed.

Lemma length_cons_pred x (s : string) :
  (String.length (String x s) - 1)%nat = String.length s.
Proof. simpl. lia. Qed.

Lemma prefix_split sep s :
  String.prefix sep s = true → ∃ t, s = sep +:+ t.
Proof.
  revert s. induction sep as [|a sep IH]; intros s; simpl.
  - by exists s.
  - destruct s as [|b s]; first done. simpl.
    destruct (Ascii.ascii_dec a b) as [<-|]; last done.
    intros [t ->]%IH. by exists t.
Qed.

Lemma prefix_append sep t : String.prefix sep (sep +:+ t) = true.
Proof.
  induction sep as [|a sep IH]; first by destruct t.
  rewrite append_cons. cbn [String.prefix].
  destruct (Ascii.ascii_dec a a); [exact IH | done].
Qed.

Lemma drop_chars_append a t : drop_chars (String.length a) (a +:+ t) = t.
Proof.
  induction a as [|x a IH]; first by destruct t. by rewrite append_cons.
Qed.

(** Dropping the rest of a matched separator. *)
Lemma split_go_skip sep k cur s :
  (k ≤ String.length s)%nat →
  split_go sep k cur s = split_go sep 0 cur (drop_chars k s).
Proof.
  revert s. induction k as [|k IH]; intros s Hk; first by destruct s.
  destruct s as [|c s]; simpl in *; first lia.
  apply IH. lia.
Qed.

Lemma split_go_nonempty sep k cur s : split_go sep k cur s ≠ [].
Proof.
  revert k cur.
  induction s as [|c s IH]; intros k cur; cbn [split_go]; first done.
  destruct k; last apply IH.
  destruct (String.prefix sep (String c s)); [done | apply IH].
Qed.

Lemma concat_cons sep x l :
  l ≠ [] → String.concat sep (x :: l) = x +:+ sep +:+ String.concat sep l.
Proof. by destruct l. Qed.

(** Joining the pieces with the separator gives the string back. *)
Lemma join_split_go sep n : ∀ s cur,
  sep ≠ EmptyString → (String.length s ≤ n)%nat →
  join sep (split_go sep 0 cur s) = cur +:+ s.
Proof.
  unfold join. induction n as [|n IH]; intros s cur Hsep Hlen.
  - destruct s; simpl in *; [by rewrite append_empty_r | lia].
  - destruct s as [|c s]; first by rewrite /= append_empty_r.
    simpl in Hlen. cbn [split_go].
    destruct (String.prefix sep (String c s)) eqn:Hpre.
    + destruct (prefix_split _ _ Hpre) as [t Ht].
      destruct sep as [|a sep']; first done.
      rewrite append_cons in Ht. injection Ht as <- ->.
      rewrite length_cons_pred.
      rewrite split_go_skip; last (rewrite length_append; lia).
      rewrite drop_chars_append.
      rewrite concat_cons; last apply split_go_nonempty.
      rewrite IH //; last (rewrite length_append in Hlen; lia).
    + rewrite IH //; last lia.
      by rewrite append_assoc append_cons.
Qed.

Lemma join_split s sep :
  sep ≠ EmptyString → join sep (py_split s sep) = s.
Proof. intros Hsep. by apply (join_split_go sep (String.length s)). Qed.

(** Without an occurrence of the separator there is one piece. *)
Lemma split_go_no_occurrence sep s : ∀ cur,
  occurs sep s = false → split_go sep 0 cur s = [cur +:+ s].
Proof.
  induction s as [|c s IH]; intros cur; cbn [split_go occurs].
  - by rewrite append_empty_r.
  - intros [Hpre Hocc]%orb_false_iff.
    rewrite Hpre IH // append_assoc append_cons //.
Qed.

(** A string that starts with the separator: the second piece is what
    follows it, up to the next occurrence. *)
Lemma split_after_prefix sep d :
  sep ≠ EmptyString → occurs sep d = false →
  py_split (sep +:+ d) sep = [EmptyString; d].
Proof.
  intros Hsep Hocc. unfold py_split.
  destruct sep as [|a sep']; first done.
  rewrite append_cons. cbn [split_go]. rewrite -append_cons.
  rewrite prefix_append length_cons_pred.
  rewrite split_go_skip; last (rewrite length_append; lia).
  rewrite drop_chars_append. by rewrite split_go_no_occurrence.
Qed.

(** For a separator of one character, no piece holds the separator. *)
Lemma occurs_single_snoc c cur a :
  occurs (String c EmptyString) cur = false → a ≠ c →
  occurs (String c EmptyString) (cur +:+ String a EmptyString) = false.
Proof.
  intros Hcur Hne. induction cur as [|x cur IH].
  - change (EmptyString +:+ String a EmptyString) with (String a EmptyString).
    cbn [occurs String.prefix].
    by destruct (Ascii.ascii_dec c a) as [->|].
  - rewrite append_cons. cbn [occurs String.prefix] in *.
    apply orb_false_iff in Hcur as [Hx Hcur].
    destruct (Ascii.ascii_dec c x); first by destruct cur.
    simpl. by apply IH.
Qed.

Lemma split_go_pieces_single c s : ∀ cur,
  occurs (String c EmptyString) cur = false →
  Forall (λ piece, occurs (String c EmptyString) piece = false)
         (split_go (String c EmptyString) 0 cur s).
Proof.
  induction s as [|a s IH]; intros cur Hcur; cbn [split_go].
  - by constructor.
  - rewrite length_cons_pred. cbn [String.prefix String.length].
    destruct (Ascii.ascii_dec c a) as [->|Hne].
    + replace (String.prefix EmptyString s) with true by by destruct s.
      constructor; first done. by apply IH.
    + apply IH, occurs_single_snoc; [done | congruence].
Qed.

(** What [split(';')] gives: pieces without ';' that joined by ';' give the
    string back. *)
Lemma split_semicolon s :
  py_split s ";" ≠ []
  ∧ join ";" (py_split s ";") = s
  ∧ Forall (λ piece, occurs ";" piece = false) (py_split s ";").
Proof.
  split; first apply split_go_nonempty.
  split; first by apply join_split.
  by apply split_go_pieces_single.
Qed.

(** ** The record [create_dataset_metadata] builds *)

(** An inventory that has a first row and every column the function reads. *)
Definition complete_inventory (df : DataFrame scalar) : bool :=
  negb (df_empty df) && rectangular df && forallb (has_column df) read_columns.

(** The cell of the first row in column [c]. *)
Definition first_cell (df : DataFrame scalar) (c : string) : scalar :=
  default SNone (assoc c (row_at df 0)).

(** The dict the function ends with, given the cells it read. *)
Definition built_record (author affiliation contact email : string)
    (title card_number contributor observations year month day subjects
       topic_class url : scalar) : dict :=
  <["title" := PS title]>
  (<["author" := PList [PDict (<["authorName" := pstr author]>
                              (<["authorAffiliation" := pstr affiliation]> ∅))]]>
  (<["description" :=
       PList [PDict (<["dsDescriptionValue" :=
         pstr (py_str title
               +:+ " is a series of tables and text files associated with HCO Announcement Card number: "
               +:+ py_str card_number +:+ ". Compiled by: "
               +:+ py_str contributor +:+ ". Objects observed include "
               +:+ py_str observations +:+ ".")]> ∅)]]>
  (<["contact" := PList [PDict (<["datasetContactName" := pstr contact]>
                               (<["datasetContactAffiliation" := pstr affiliation]>
                               (<["datasetContactEmail" := pstr email]> ∅)))]]>
  (<["subject" := PList [pstr "Astronomy and Astrophysics"]]>
  (<["license" := pstr "CC0 1.0"]>
  (<["keywords" := PList (keyword_entry <$> split_if_str subjects)]>
  (<["topic_classification" := PList (topic_entry <$> split_if_str topic_class)]>
  (<["data_source" := PList [PS url]]>
  (<["creation_date" :=
       pstr (py_str year +:+ "-" +:+ py_str month +:+ "-" +:+ py_str day)]>
  (<["astroObject" := PList (pstr <$> split_if_str observations)]>
  (<["astroFacility" := PList [pstr "Harvard Bureau of Astronomical Telegrams"]]>
  (<["astroType" := pstr "Observation"]> ∅)))))))))))).

Lemma complete_inventory_spec df :
  complete_inventory df = true →
  df_empty df = false ∧ rectangular df = true
  ∧ ∀ c, c ∈ read_columns → has_column df c = true.
Proof.
  unfold complete_inventory.
  intros [[Hne%negb_true_iff Hrect]%andb_true_iff Hcols]%andb_true_iff.
  split; first done. split; first done.
  intros c Hc. apply (proj1 (forallb_forall _ _) Hcols).
  by apply list_elem_of_In.
Qed.

Lemma complete_inventory_at df c :
  complete_inventory df = true → c ∈ read_columns →
  df_at df 0 c = ret (first_cell df c).
Proof.
  intros (Hne & Hrect & Hcols)%complete_inventory_spec Hc.
  rewrite df_at_first //. unfold first_cell.
  pose proof (Hcols c Hc) as Hhas.
  rewrite has_column_first // in Hhas.
  by destruct (assoc c (row_at df 0)).
Qed.

(** On a complete inventory and with non-empty arguments the function
    returns, and returns [built_record] of the cells of the first row. *)
Lemma create_dataset_metadata_complete
    author affiliation contact email series_name df w :
  str_truthy author = true → str_truthy affiliation = true →
  str_truthy contact = true → str_truthy email = true →
  str_truthy series_name = true → complete_inventory df = true →
  create_dataset_metadata author affiliation contact email series_name df w
  = (Return (built_record author affiliation contact email
               (first_cell df "series_name") (first_cell df "card_number")
               (first_cell df "contributor")
               (first_cell df "all_observations")
               (first_cell df "card_date_year")
               (first_cell df "card_date_month")
               (first_cell df "card_date_day") (first_cell df "subjects")
               (first_cell df "topic_class") (first_cell df "url")), w).
Proof.
  intros H1 H2 H3 H4 H5 Hdf. unfold create_dataset_metadata.
  destruct (complete_inventory_spec df Hdf) as (Hne & Hrect & Hhas).
  rewrite H1 H2 H3 H4 H5 Hne /=.
  rewrite !Hhas; [|in_list..]. simpl.
  rewrite !(complete_inventory_at df) //; in_list.
Qed.

(** X1: on an inventory that has a first row and the eleven columns read,
    and with non-empty arguments, [create_dataset_metadata] never raises
    and prints nothing, whatever the cells hold: it returns a record of
    thirteen entries whose title is the first row's series name, whose
    data_source is the list of the first row's url, and whose creation_date
    is str(year)-str(month)-str(day) of the first row (a missing part shows
    as 'nan'). *)
Theorem metadata_on_complete_inventory
    author affiliation contact email series_name df w :
  str_truthy author = true → str_truthy affiliation = true →
  str_truthy contact = true → str_truthy email = true →
  str_truthy series_name = true → complete_inventory df = true →
  ∃ d,
    create_dataset_metadata author affiliation contact email series_name df w
    = (Return d, w)
    ∧ size d = 13%nat
    ∧ d !! "title" = Some (PS (first_cell df "series_name"))
    ∧ d !! "data_source" = Some (PList [PS (first_cell df "url")])
    ∧ d !! "creation_date"
      = Some (pstr (py_str (first_cell df "card_date_year") +:+ "-"
                    +:+ py_str (first_cell df "card_date_month") +:+ "-"
                    +:+ py_str (first_cell df "card_date_day"))).
Proof.
  intros H1 H2 H3 H4 H5 Hdf. eexists. split.
  { by apply create_dataset_metadata_complete. }
  split; first by vm_compute. by vm_compute.
Qed.

Lemma metadata_on_complete_inventory_witness :
  ∃ d,
    create_dataset_metadata "A. Author" "Harvard" "C. Contact" "c@example.org"
      "Nova Aquilae" sample_inventory quiet_world
    = (Return d, quiet_world)
    ∧ size d = 13%nat
    ∧ d !! "title" = Some (PS (first_cell sample_inventory "series_name"))
    ∧ d !! "data_source"
      = Some (PList [PS (first_cell sample_inventory "url")])
    ∧ d !! "creation_date"
      = Some (pstr (py_str (first_cell sample_inventory "card_date_year")
                    +:+ "-"
                    +:+ py_str (first_cell sample_inventory "card_date_month")
                    +:+ "-"
                    +:+ py_str (first_cell sample_inventory "card_date_day"))).
Proof. apply metadata_on_complete_inventory; reflexivity. Defined.

(** What splitting a cell at ';' gives: for a string, pieces without ';'
    that joined by ';' give the string back; for anything else, nothing. *)
Definition pieces_of (cell : scalar) (pieces : list string) : Prop :=
  match cell with
  | SStr s =>
      pieces ≠ [] ∧ join ";" pieces = s
      ∧ Forall (λ piece, occurs ";" piece = false) pieces
  | _ => pieces = []
  end.

Lemma split_if_str_pieces cell : pieces_of cell (split_if_str cell).
Proof. destruct cell; try done. apply split_semicolon. Qed.

(** X2: the keywords, topic classes and observed objects of the record are
    the subjects, topic_class and all_observations cells of the first row
    split at ';': nothing is lost (joining the pieces by ';' gives the cell
    back), no piece holds a ';', and a cell that is not a string (a missing
    value) gives the empty list, not an error. *)
Theorem metadata_lists_split_cells
    author affiliation contact email series_name df w :
  str_truthy author = true → str_truthy affiliation = true →
  str_truthy contact = true → str_truthy email = true →
  str_truthy series_name = true → complete_inventory df = true →
  ∃ d keywords topics observed,
    create_dataset_metadata author affiliation contact email series_name df w
    = (Return d, w)
    ∧ d !! "keywords" = Some (PList (keyword_entry <$> keywords))
    ∧ pieces_of (first_cell df "subjects") keywords
    ∧ d !! "topic_classification" = Some (PList (topic_entry <$> topics))
    ∧ pieces_of (first_cell df "topic_class") topics
    ∧ d !! "astroObject" = Some (PList (pstr <$> observed))
    ∧ pieces_of (first_cell df "all_observations") observed.
Proof.
  intros H1 H2 H3 H4 H5 Hdf.
  exists (built_record author affiliation contact email
            (first_cell df "series_name") (first_cell df "card_number")
            (first_cell df "contributor") (first_cell df "all_observations")
            (first_cell df "card_date_year") (first_cell df "card_date_month")
            (first_cell df "card_date_day") (first_cell df "subjects")
            (first_cell df "topic_class") (first_cell df "url")).
  exists (split_if_str (first_cell df "subjects")),
         (split_if_str (first_cell df "topic_class")),
         (split_if_str (first_cell df "all_observations")).
  split; first by apply create_dataset_metadata_complete.
  split; first done. split; first apply split_if_str_pieces.
  split; first done. split; first apply split_if_str_pieces.
  split; first done. apply split_if_str_pieces.
Qed.

Lemma metadata_lists_split_cells_witness :
  ∃ d keywords topics observed,
    create_dataset_metadata "A. Author" "Harvard" "C. Contact" "c@example.org"
      "Nova Aquilae" sample_inventory quiet_world
    = (Return d, quiet_world)
    ∧ d !! "keywords" = Some (PList (keyword_entry <$> keywords))
    ∧ pieces_of (first_cell sample_inventory "subjects") keywords
    ∧ d !! "topic_classification" = Some (PList (topic_entry <$> topics))
    ∧ pieces_of (first_cell sample_inventory "topic_class") topics
    ∧ d !! "astroObject" = Some (PList (pstr <$> observed))
    ∧ pieces_of (first_cell sample_inventory "all_observations") observed.
Proof. apply metadata_lists_split_cells; reflexivity. Defined.

(** X3: the argument [series_name] is checked for emptiness and not used
    otherwise: the title comes from the inventory, and two non-empty series
    names give the same outcome. *)
Theorem series_name_only_checked
    author affiliation contact email series_name series_name' df w :
  str_truthy series_name = true → str_truthy series_name' = true →
  create_dataset_metadata author affiliation contact email series_name df w
  = create_dataset_metadata author affiliation contact email series_name' df w.
Proof.
  intros H1 H2. unfold create_dataset_metadata. by rewrite H1 H2.
Qed.

Lemma series_name_only_checked_witness :
  create_dataset_metadata "A. Author" "Harvard" "C. Contact" "c@example.org"
    "Nova Aquilae" sample_inventory quiet_world
  = create_dataset_metadata "A. Author" "Harvard" "C. Contact" "c@example.org"
      "Another name" sample_inventory quiet_world.
Proof. apply series_name_only_checked; reflexivity. Defined.

(** ** More on [create_datafile_metadata] *)

(** X4: the tags of a file are 'Data' followed by its observation cell
    split at ';': for a cell that is present, str(cell) is split, nothing is
    lost and no tag holds a ';'; for a missing cell (None or NaN) the tags
    are ['Data'] alone. *)
Theorem tags_split_observations
    df template_csv template_txt template_xml w :
  valid_inventory df = true →
  str_truthy template_csv = true → str_truthy template_txt = true →
  ∃ ob out tags,
    column df "observation" = Some ob
    ∧ create_datafile_metadata df template_csv template_txt template_xml w
      = (Return out, w)
    ∧ column out "tags" = Some tags
    ∧ ∀ i o, ob !! i = Some o →
        ∃ entities,
          tags !! i = Some (PList (pstr "Data" :: (pstr <$> entities)))
          ∧ if notna o
            then entities ≠ [] ∧ join ";" entities = py_str o
                 ∧ Forall (λ tag, occurs ";" tag = false) entities
            else entities = [].
Proof.
  intros Hvalid Hcsv Htxt.
  destruct (create_datafile_metadata_valid df template_csv template_txt
              template_xml w Hvalid Hcsv Htxt)
    as (fn & ft & sn & ob & _ & _ & _ & Eob & _ & _ & _ & _ & Hrun).
  exists ob. eexists. eexists. split; first done.
  split; first exact Hrun. split; first reflexivity.
  intros i o Hi.
  exists (if notna o then py_split (py_str o) ";" else []). split.
  - rewrite !list_lookup_fmap Hi /=. unfold tags_value, file_tags_of.
    by destruct (notna o).
  - destruct (notna o); [apply split_semicolon | done].
Qed.

Lemma tags_split_observations_witness :
  ∃ ob out tags,
    column sample_files "observation" = Some ob
    ∧ create_datafile_metadata sample_files "CSV" "TXT" "XML" quiet_world
      = (Return out, quiet_world)
    ∧ column out "tags" = Some tags
    ∧ ∀ i o, ob !! i = Some o →
        ∃ entities,
          tags !! i = Some (PList (pstr "Data" :: (pstr <$> entities)))
          ∧ if notna o
            then entities ≠ [] ∧ join ";" entities = py_str o
                 ∧ Forall (λ tag, occurs ";" tag = false) entities
            else entities = [].
Proof.
  apply (tags_split_observations sample_files "CSV" "TXT" "XML"); reflexivity.
Defined.

(** X5: the returned table has the five columns filename, file_type,
    description, mimetype and tags, in this order, and no other: the series
    name, the observation and any further column of the inventory are not
    carried over. *)
Theorem datafile_columns df template_csv template_txt template_xml w :
  valid_inventory df = true →
  str_truthy template_csv = true → str_truthy template_txt = true →
  ∃ out,
    create_datafile_metadata df template_csv template_txt template_xml w
    = (Return out, w)
    ∧ columns out
      = ["filename"; "file_type"; "description"; "mimetype"; "tags"].
Proof.
  intros Hvalid Hcsv Htxt.
  destruct (create_datafile_metadata_valid df template_csv template_txt
              template_xml w Hvalid Hcsv Htxt)
    as (fn & ft & sn & ob & _ & _ & _ & _ & _ & _ & _ & _ & Hrun).
  eexists. split; [exact Hrun | done].
Qed.

Lemma datafile_columns_witness :
  ∃ out,
    create_datafile_metadata sample_files "CSV" "TXT" "XML" quiet_world
    = (Return out, quiet_world)
    ∧ columns out
      = ["filename"; "file_type"; "description"; "mimetype"; "tags"].
Proof.
  apply (datafile_columns sample_files "CSV" "TXT" "XML"); reflexivity.
Defined.

(** A loop whose turns each return without touching the world or raise [e]
    without touching it, and one of which raises, raises [e]. *)
Lemma for_each_raises {A S} (f : S → A → S) (body : S → A → M S) e
    (raising : A → bool) (l : list A) :
  (∀ x, x ∈ l → raising x = false →
        ∀ s w, body s x w = (Return (f s x), w)) →
  (∀ x, x ∈ l → raising x = true → ∀ s w, body s x w = (Raise e, w)) →
  existsb raising l = true →
  ∀ s w, for_each l body s w = (Raise e, w).
Proof.
  induction l as [|x l IH]; intros Hgood Hbad Hsome s w; first done.
  simpl in *. destruct (raising x) eqn:Hx.
  - erewrite bind_raise; first done. apply Hbad; [by left | done].
  - erewrite bind_return; last by apply Hgood; [left | done].
    apply IH; [| |done].
    + intros y Hy. apply Hgood. by right.
    + intros y Hy. apply Hbad. by right.
Qed.

(** An inventory that passes the checks of the function. *)
Definition accepted_inventory (df : DataFrame scalar) : bool :=
  negb (df_empty df) && rectangular df
  && has_column df "filename" && has_column df "file_type"
  && has_column df "series_name" && has_column df "observation".

(** X6: the series names are not checked: on an inventory that passes the
    checks but has a series name that is not a string (a missing value, a
    number), [create_datafile_metadata] raises TypeError and returns no
    table. *)
Theorem series_name_not_string_raises
    df template_csv template_txt template_xml names w :
  accepted_inventory df = true →
  str_truthy template_csv = true → str_truthy template_txt = true →
  column df "series_name" = Some names →
  existsb (λ v, negb (is_str v)) names = true →
  create_datafile_metadata df template_csv template_txt template_xml w
  = (Raise TypeError, w).
Proof.
  unfold accepted_inventory. rewrite !andb_true_iff negb_true_iff.
  intros [[[[[Hne Hrect] Hfn] Hft] Hsn] Hob] Hcsv Htxt Hnames Hbad.
  unfold create_datafile_metadata.
  rewrite Hne Hcsv Htxt Hfn Hft Hsn Hob /=.
  erewrite bind_raise; first done.
  apply (for_each_raises (add_file template_txt template_xml) _ _
           (λ row, negb (is_str (cell "series_name" row)))).
  - intros row Hrow Hstr acc w0.
    destruct (iterrows_item df "filename" row) as [v1 E1]; [done..|].
    destruct (iterrows_item df "file_type" row) as [v2 E2]; [done..|].
    destruct (iterrows_item df "series_name" row) as [v3 E3]; [done..|].
    destruct (iterrows_item df "observation" row) as [v4 E4]; [done..|].
    unfold cell in Hstr. rewrite E3 /= in Hstr.
    destruct v3; try done. by eapply datafile_row_pure.
  - intros row Hrow Hstr acc w0.
    destruct (iterrows_item df "filename" row) as [v1 E1]; [done..|].
    destruct (iterrows_item df "file_type" row) as [v2 E2]; [done..|].
    destruct (iterrows_item df "series_name" row) as [v3 E3]; [done..|].
    destruct (iterrows_item df "observation" row) as [v4 E4]; [done..|].
    unfold cell in Hstr. rewrite E3 /= in Hstr.
    unfold datafile_row, bind, row_item, ret, str_add.
    rewrite E1 E2 E3 E4 /=.
    destruct v3; try done;
      by destruct (eq_str v2 "csv"), (eq_str v2 "xml").
  - rewrite -(iterrows_column df "series_name" names SNone) // in Hbad.
    rewrite existsb_exists in Hbad. destruct Hbad as (v & Hin & Hv).
    apply list_elem_of_In, list_elem_of_fmap in Hin as (row & -> & Hrow).
    apply existsb_exists. exists row. split; last done.
    by apply list_elem_of_In.
Qed.

Definition files_without_name : DataFrame scalar := mkDF
  [("filename", [SStr "a.csv"; SStr "b.txt"]);
   ("file_type", [SStr "csv"; SStr "txt"]);
   ("series_name", [SStr "S1"; SNaN]);
   ("observation", [SStr "Nova"; SNaN])].

Lemma series_name_not_string_raises_witness :
  create_datafile_metadata files_without_name "CSV" "TXT" "XML" quiet_world
  = (Raise TypeError, quiet_world).
Proof.
  apply (series_name_not_string_raises files_without_name "CSV" "TXT" "XML"
           [SStr "S1"; SNaN]); reflexivity.
Defined.

(** ** More on listing a collection *)

Definition doi_prefix : string := "https://doi.org/".

(** A listing entry for the DOI [doi]: a dict whose persistentUrl is the
    DOI's URL, the DOI itself not holding the prefix again. *)
Definition lists_doi (entry : dict) (doi : string) : Prop :=
  entry !! "persistentUrl" = Some (pstr (doi_prefix +:+ doi))
  ∧ occurs doi_prefix doi = false.

Lemma pid_of_entry_doi datasets entry doi w :
  lists_doi entry doi →
  pid_of_entry datasets (PDict entry) w
  = (Return (datasets ++ ["doi:" +:+ doi]), w).
Proof.
  intros [Hurl Hocc]. unfold pid_of_entry, bind, py_get, dict_get, ret.
  rewrite Hurl /=. unfold second_piece.
  change "https://doi.org/" with doi_prefix.
  by rewrite split_after_prefix.
Qed.

Lemma pids_of_entries entries : ∀ dois datasets w,
  Forall2 lists_doi entries dois →
  for_each (PDict <$> entries) pid_of_entry datasets w
  = (Return (datasets ++ (String.append "doi:" <$> dois)), w).
Proof.
  induction entries as [|entry entries IH]; intros dois datasets w Hall.
  - apply Forall2_nil_inv_l in Hall as ->. by rewrite /= app_nil_r.
  - apply Forall2_cons_inv_l in Hall as (doi & dois' & Hdoi & Hall & ->).
    rewrite fmap_cons. cbn [for_each].
    erewrite bind_return; last by apply pid_of_entry_doi.
    rewrite (IH dois') // -app_assoc //.
Qed.

(** X7: when the repository answers the listing with a JSON object whose
    'data' is a list of entries with DOI URLs, the datasets of the
    collection are the DOIs with the prefix 'doi:', in the order of the
    listing, and the listing costs one request. *)
Theorem listing_gives_dois api dataverse_collection w js entries dois :
  body (server w (sent w) (GetDataverseContents api dataverse_collection))
  = Some (PDict js) →
  js !! "data" = Some (PList (PDict <$> entries)) →
  Forall2 lists_doi entries dois →
  collection_datasets api dataverse_collection w
  = (Return (String.append "doi:" <$> dois),
     after_send w (GetDataverseContents api dataverse_collection)).
Proof.
  intros Hbody Hdata Hall. unfold collection_datasets.
  rewrite bind_send. unfold bind at 1, json. rewrite Hbody /=.
  unfold bind at 1, py_get, dict_get. rewrite Hdata /=.
  unfold bind at 1. simpl. by rewrite (pids_of_entries entries dois).
Qed.

Lemma listing_gives_dois_witness :
  collection_datasets sample_api "hco" sample_repository
  = (Return ["doi:10.5072/FK2/A"; "doi:10.5072/FK2/B"],
     after_send sample_repository (GetDataverseContents sample_api "hco")).
Proof.
  apply (listing_gives_dois sample_api "hco" sample_repository
           (<["status" := pstr "OK"]>
            (<["data" := PList [listed "10.5072/FK2/A";
                                listed "10.5072/FK2/B"]]> ∅))
           [<["persistentUrl" := pstr ("https://doi.org/" +:+ "10.5072/FK2/A")]> ∅;
            <["persistentUrl" := pstr ("https://doi.org/" +:+ "10.5072/FK2/B")]> ∅]
           ["10.5072/FK2/A"; "10.5072/FK2/B"]).
  - reflexivity.
  - reflexivity.
  - repeat constructor.
Defined.

(** ** More on the batches *)

(** X8: a listing that fails stops [publish_datasets] and
    [unlock_datasets] before they touch any dataset: they raise what the
    listing raised, the listing request being the only one sent. *)
Theorem failed_listing_stops_batch api dataverse_collection version w e w1 :
  str_truthy dataverse_collection = true →
  collection_datasets api dataverse_collection w = (Raise e, w1) →
  w1 = after_send w (GetDataverseContents api dataverse_collection)
  ∧ publish_datasets (Some api) dataverse_collection version w = (Raise e, w1)
  ∧ unlock_datasets (Some api) dataverse_collection w = (Raise e, w1).
Proof.
  intros Hcoll Hlist. split; last split.
  - pose proof (collection_datasets_world api dataverse_collection w) as Hw.
    by rewrite Hlist in Hw.
  - unfold publish_datasets. rewrite Hcoll /=. by erewrite bind_raise.
  - unfold unlock_datasets. rewrite Hcoll /=. by erewrite bind_raise.
Qed.

(** A repository whose listing names a dataset by a handle, not a DOI. *)
Definition handle_repository : world :=
  mkWorld
    (λ _ _,
       mkResponse 200
         (with_data
            (PList [listed "10.5072/FK2/A";
                    PDict (<["persistentUrl" :=
                               pstr "https://hdl.handle.net/1902.1/111"]> ∅)])))
    [] [] [].

Lemma failed_listing_stops_batch_witness :
  publish_datasets (Some sample_api) "hco" "major" handle_repository
  = (Raise IndexError,
     after_send handle_repository (GetDataverseContents sample_api "hco"))
  ∧ unlock_datasets (Some sample_api) "hco" handle_repository
    = (Raise IndexError,
       after_send handle_repository (GetDataverseContents sample_api "hco")).
Proof.
  destruct (failed_listing_stops_batch sample_api "hco" "major"
              handle_repository IndexError
              (after_send handle_repository
                 (GetDataverseContents sample_api "hco")))
    as (_ & Hpublish & Hunlock); [reflexivity..|].
  by split.
Defined.

(** X9: [publish_datasets] publishes every listed dataset, distinct or not:
    it sends one POST per entry of the listing, in order, and keeps for each
    identifier the entry made from the answer to its last POST. *)
Theorem publish_keeps_last_answer api dataverse_collection version w pids w1 :
  str_truthy dataverse_collection = true →
  collection_datasets api dataverse_collection w = (Return pids, w1) →
  ∃ errors,
    publish_datasets (Some api) dataverse_collection version w
    = (Return errors,
       mkWorld (server w1)
         (sent w1 ++ (publish_request api version <$> pids)) (stdout w1)
         (objects w1))
    ∧ dom errors = list_to_set pids
    ∧ ∀ i pid, pids !! i = Some pid → pid ∉ drop (S i) pids →
        errors !! pid
        = Some (publish_entry
                  (status_code
                     (response_of (publish_request api version) w1 pids i pid))
                  pid).
Proof.
  intros Hcoll Hlist. unfold publish_datasets. rewrite Hcoll /=.
  rewrite (bind_return _ _ _ _ _ Hlist) publish_one_report.
  destruct (report_loop (publish_request api version) publish_entry pids ∅ w1)
    as (errors & Hrun & Hdom & _ & Hentry).
  exists errors. split; first done. split; last done.
  by rewrite Hdom dom_empty_L left_id_L.
Qed.

Lemma publish_keeps_last_answer_witness :
  ∃ errors,
    fst (publish_datasets (Some sample_api) "hco" "major" repeating_repository)
    = Return errors
    ∧ dom errors = list_to_set ["doi:10.5072/FK2/A"; "doi:10.5072/FK2/A"]
    ∧ errors !! "doi:10.5072/FK2/A"
      = Some (publish_entry 200 "doi:10.5072/FK2/A").
Proof.
  destruct (publish_keeps_last_answer sample_api "hco" "major"
              repeating_repository
              ["doi:10.5072/FK2/A"; "doi:10.5072/FK2/A"]
              (after_send repeating_repository
                 (GetDataverseContents sample_api "hco")))
    as (errors & Hrun & Hdom & Hentry); [reflexivity..|].
  exists errors. rewrite Hrun. split; first done. split; first done.
  apply (Hentry 1%nat); [reflexivity | apply not_elem_of_nil].
Defined.

(** ** More on [unlock_datasets] *)

Lemma check_locks_none api datasets : ∀ w,
  (∀ log dataset, dataset ∈ datasets →
     no_lock (server w log (locks_request GET api dataset))) →
  for_each datasets (check_lock api) [] w
  = (Return [],
     mkWorld (server w) (sent w ++ (locks_request GET api <$> datasets))
       (stdout w) (objects w)).
Proof.
  induction datasets as [|d datasets IH]; intros w Hnone.
  - rewrite /= app_nil_r. by destruct w.
  - cbn [for_each].
    erewrite bind_return;
      last by apply check_lock_no_lock, Hnone; left.
    rewrite IH /=; first by rewrite -app_assoc.
    intros log dataset Hin. apply Hnone. by right.
Qed.

(** X10: when no dataset of the collection is locked, [unlock_datasets]
    asks once for the locks of each dataset, sends no DELETE, and returns
    the empty record. *)
Theorem nothing_locked_nothing_unlocked api dataverse_collection w pids w1 :
  str_truthy dataverse_collection = true →
  collection_datasets api dataverse_collection w = (Return pids, w1) →
  (∀ log dataset, dataset ∈ pids →
     no_lock (server w log (locks_request GET api dataset))) →
  unlock_datasets (Some api) dataverse_collection w
  = (Return ∅,
     mkWorld (server w1) (sent w1 ++ (locks_request GET api <$> pids))
       (stdout w1) (objects w1)).
Proof.
  intros Hcoll Hlist Hnone. unfold unlock_datasets. rewrite Hcoll /=.
  rewrite (bind_return _ _ _ _ _ Hlist).
  pose proof (collection_datasets_world api dataverse_collection w) as Hw.
  rewrite Hlist /= in Hw. subst w1.
  erewrite bind_return; last by apply check_locks_none.
  done.
Qed.

Lemma nothing_locked_nothing_unlocked_witness :
  unlock_datasets (Some sample_api) "hco" unlocked_repository
  = (Return ∅,
     mkWorld (server unlocked_repository)
       [GetDataverseContents sample_api "hco";
        locks_request GET sample_api "doi:10.5072/FK2/A"]
       [] []).
Proof.
  apply (nothing_locked_nothing_unlocked sample_api "hco" unlocked_repository
           ["doi:10.5072/FK2/A"]
           (after_send unlocked_repository
              (GetDataverseContents sample_api "hco"))).
  - reflexivity.
  - reflexivity.
  - intros log dataset _. exists (<["status" := pstr "OK"]>
                                   (<["data" := PList []]> ∅)), (PList []).
    by repeat split.
Defined.



(** A repository that answers lock checks with an error message. *)
Definition refusing_repository : world :=
  mkWorld
    (λ _ r,
       match r with
       | GetDataverseContents _ _ =>
           mkResponse 200
             (with_data (PList [listed "10.5072/FK2/A"; listed "10.5072/FK2/B"]))
       | Http _ _ _ _ =>
           mkResponse 401
             (Some (PDict (<["status" := pstr "ERROR"]>
                          (<["message" := pstr "Bad api key"]> ∅))))
       end)
    [] [] [].


(** ** More on [pydataverse_create_dataset] *)

(** X12: after a 2xx answer the identifiers are read without a check: an
    answer that is no JSON raises JSONDecodeError and a JSON object without
    'data' raises AttributeError, in both cases after the creation request
    was sent. *)
Theorem created_without_data_raises `{PyDataverse}
    api dataverse_url dataset_metadata w :
  dict_truthy dataset_metadata = true →
  validate_json (dataset_model dataset_metadata) = true →
  let request :=
    create_request api dataverse_url (dataset_model dataset_metadata) in
  let r := server w (sent w) request in
  is_2xx (status_code r) = true →
  (body r = None →
   pydataverse_create_dataset (Some api) dataverse_url dataset_metadata w
   = (Raise JSONDecodeError, after_send w request))
  ∧ (∀ js, body r = Some (PDict js) → js !! "data" = None →
     pydataverse_create_dataset (Some api) dataverse_url dataset_metadata w
     = (Raise AttributeError, after_send w request)).
Proof.
  intros Hmd Hvalid request r Hok. subst r.
  unfold pydataverse_create_dataset. rewrite Hmd Hvalid /=.
  fold request. rewrite bind_send Hok /=. split.
  - intros Hbody. unfold bind, json. by rewrite Hbody.
  - intros js Hbody Hdata. unfold bind, json, py_get, dict_get, ret.
    by rewrite Hbody /= Hdata.
Qed.

Lemma created_without_data_raises_witness :
  @pydataverse_create_dataset accepting (Some sample_api) "histd"
     sample_metadata (answering 200 None)
  = (Raise JSONDecodeError,
     after_send (answering 200 None)
       (@create_request accepting sample_api "histd"
          (dataset_model sample_metadata))).
Proof.
  apply (@created_without_data_raises accepting sample_api "histd"
           sample_metadata (answering 200 None)); reflexivity.
Defined.

(** ** [delete_datasets] *)

(** The request the pyDataverse client sends for
    [api.destroy_dataset(pid, is_pid=True, auth=True)]. *)
Class PyDataverseClient := {
  destroy_request : Api → string → request
}.

Section delete.
Context `{PyDataverseClient}.

(** One turn of the destroying loop. *)
Definition destroy_one (api : Api) (_ : unit) (dataset : string) : M unit :=
  response <- send (destroy_request api dataset) ;;
  status <- json response ;;
  print_fmt "api.destroy_dataset: {}" [status].

(** No parameter is checked: without an api the first method call fails. *)
Definition delete_datasets (api : option Api) (dataverse_url : string)
  : M bool :=
  match api with
  | None => raise AttributeError
  | Some api =>
      datasets <- collection_datasets api dataverse_url ;;
      (* destroy the datasets *)
      for_each datasets (destroy_one api) () ;;
      ret true
  end.

(** The answer to the [i]-th destroy request of the batch. *)
Definition destroy_answer (api : Api) (w : world) (pids : list string)
    (i : nat) (pid : string) : response :=
  response_of (destroy_request api) w pids i pid.

Lemma destroy_step api p pids w status :
  body (server w (sent w) (destroy_request api p)) = Some status →
  for_each (p :: pids) (destroy_one api) () w
  = for_each pids (destroy_one api) ()
      (mkWorld (server w) (sent w ++ [destroy_request api p])
         (stdout w ++ [("api.destroy_dataset: {}", [status])]) (objects w)).
Proof.
  intros Hbody. cbn [for_each].
  unfold destroy_one, bind, send, json, print_fmt. simpl.
  by rewrite Hbody.
Qed.

Lemma destroy_loop api pids : ∀ w,
  (∀ log pid, pid ∈ pids →
     is_Some (body (server w log (destroy_request api pid)))) →
  ∃ printed,
    for_each pids (destroy_one api) () w
    = (Return (),
       mkWorld (server w) (sent w ++ (destroy_request api <$> pids))
         (stdout w ++ printed) (objects w))
    ∧ length printed = length pids
    ∧ ∀ i pid, pids !! i = Some pid →
        ∃ status,
          body (destroy_answer api w pids i pid) = Some status
          ∧ printed !! i = Some ("api.destroy_dataset: {}", [status]).
Proof.
  induction pids as [|p pids IH]; intros w Hjson.
  - exists []. rewrite /= !app_nil_r. split; first by destruct w.
    split; first done. by intros i pid.
  - destruct (Hjson (sent w) p) as [status Hstatus]; first by left.
    rewrite (destroy_step api p pids w status Hstatus).
    destruct (IH (mkWorld (server w) (sent w ++ [destroy_request api p])
                    (stdout w ++ [("api.destroy_dataset: {}", [status])])
                    (objects w)))
      as (printed & Hrun & Hlen & Hprinted).
    { intros log pid Hin. apply Hjson. by right. }
    exists (("api.destroy_dataset: {}", [status]) :: printed).
    split; last split.
    + rewrite Hrun /=. by rewrite -!app_assoc.
    + simpl. by rewrite Hlen.
    + intros [|i] pid Hi; simpl in *.
      * injection Hi as <-. exists status. split; last done.
        unfold destroy_answer, response_of. simpl. by rewrite app_nil_r.
      * destruct (Hprinted i pid Hi) as (status' & Hbody & Hline).
        exists status'. split; last done.
        unfold destroy_answer, response_of in *. simpl in *.
        by rewrite -app_assoc in Hbody.
Qed.

(** X13: [delete_datasets] looks at no status code: when every answer to a
    destroy request has a JSON body, it sends one destroy request per listed
    dataset, in order, prints each answer, and returns True, refused
    destroys included. *)
Theorem delete_ignores_status api dataverse_url w pids w1 :
  collection_datasets api dataverse_url w = (Return pids, w1) →
  (∀ log pid, pid ∈ pids →
     is_Some (body (server w log (destroy_request api pid)))) →
  ∃ printed,
    delete_datasets (Some api) dataverse_url w
    = (Return true,
       mkWorld (server w1) (sent w1 ++ (destroy_request api <$> pids))
         (stdout w1 ++ printed) (objects w1))
    ∧ length printed = length pids
    ∧ ∀ i pid, pids !! i = Some pid →
        ∃ status,
          body (destroy_answer api w1 pids i pid) = Some status
          ∧ printed !! i = Some ("api.destroy_dataset: {}", [status]).
Proof.
  intros Hlist Hjson. unfold delete_datasets.
  rewrite (bind_return _ _ _ _ _ Hlist).
  pose proof (collection_datasets_world api dataverse_url w) as Hw.
  rewrite Hlist /= in Hw.
  destruct (destroy_loop api pids w1) as (printed & Hrun & Hlen & Hprinted).
  { subst w1. exact Hjson. }
  exists printed. split; last done.
  by rewrite (bind_return _ _ _ _ _ Hrun).
Qed.

(** X14: a listing that fails stops [delete_datasets] before anything is
    destroyed, and a missing api is not reported but raises. *)
Theorem failed_listing_destroys_nothing api dataverse_url w e w1 :
  collection_datasets api dataverse_url w = (Raise e, w1) →
  delete_datasets (Some api) dataverse_url w
  = (Raise e, after_send w (GetDataverseContents api dataverse_url))
  ∧ delete_datasets None dataverse_url w = (Raise AttributeError, w).
Proof.
  intros Hlist. split; last done.
  pose proof (collection_datasets_world api dataverse_url w) as Hw.
  rewrite Hlist /= in Hw. subst w1.
  unfold delete_datasets. by erewrite bind_raise.
Qed.
End delete.

(** A client whose destroy request is a DELETE on the dataset, and a
    repository that lists two datasets and refuses every other request. *)
Definition sample_client : PyDataverseClient :=
  {| destroy_request api pid :=
       Http DELETE (base_url api +:+ "/destroy/" +:+ pid)
         (headers_of (api_token api)) None |}.

Lemma delete_ignores_status_witness :
  ∃ printed,
    @delete_datasets sample_client (Some sample_api) "hco" refusing_repository
    = (Return true,
       mkWorld (server refusing_repository)
         [GetDataverseContents sample_api "hco";
          @destroy_request sample_client sample_api "doi:10.5072/FK2/A";
          @destroy_request sample_client sample_api "doi:10.5072/FK2/B"]
         printed [])
    ∧ length printed = 2%nat.
Proof.
  destruct (@delete_ignores_status sample_client sample_api "hco"
              refusing_repository
              ["doi:10.5072/FK2/A"; "doi:10.5072/FK2/B"]
              (after_send refusing_repository
                 (GetDataverseContents sample_api "hco")))
    as (printed & Hrun & Hlen & _).
  - reflexivity.
  - intros log pid _. by eexists.
  - exists printed. by rewrite Hrun.
Defined.

Lemma failed_listing_destroys_nothing_witness :
  @delete_datasets sample_client (Some sample_api) "hco" handle_repository
  = (Raise IndexError,
     after_send handle_repository (GetDataverseContents sample_api "hco")).
Proof.
  apply (@failed_listing_destroys_nothing sample_client sample_api "hco"
           handle_repository IndexError
           (after_send handle_repository
              (GetDataverseContents sample_api "hco"))).
  reflexivity.
Defined.

(** ** More on [python_dvuploader] *)

Definition is_pstr (v : pyval) : bool :=
  match v with PS (SStr _) => true | _ => false end.



Lemma nonempty_iterrows {A} (df : DataFrame A) :
  df_empty df = false →
  ∃ rows, iterrows df = row_at df 0 :: rows.
Proof.
  intros Hne%nonempty_nrows. unfold iterrows.
  destruct (nrows df) as [|n]; first lia.
  by eexists.
Qed.

Section upload.
Context `{DVUploader}.



(** X17: a first row without a file name that is a string (no filename
    column, or a missing value in it) is not caught by the checks:
    [python_dvuploader] raises TypeError on it, before anything is
    evaluated or uploaded. *)
Theorem upload_without_filename_raises
    api dataverse_url dataset_pid data_directory metadata_df w :
  str_truthy dataverse_url = true → str_truthy dataset_pid = true →
  str_truthy data_directory = true →
  df_empty metadata_df = false →
  is_pstr (series_get (row_at metadata_df 0) "filename" (PS SNone)) = false →
  python_dvuploader (Some api) dataverse_url dataset_pid data_directory
    metadata_df w
  = (Raise TypeError, w).
Proof.
  intros Hurl Hpid Hdir Hne Hname.
  unfold python_dvuploader. rewrite Hurl Hpid Hdir Hne /=.
  destruct (nonempty_iterrows metadata_df Hne) as [rows ->].
  cbn [for_each]. unfold bind, upload_row, bind, str_add.
  by destruct (series_get (row_at metadata_df 0) "filename" (PS SNone))
    as [[| | | |name]| |].
Qed.
End upload.


(** A table of file metadata without the filename column. *)
Definition nameless_file_metadata : DataFrame pyval := mkDF
  [("description", [pstr "TXT S1"]);
   ("mimetype", [pstr "text/csv"]);
   ("tags", [pstr "['Data']"])].

Lemma upload_without_filename_raises_witness :
  @python_dvuploader idle_uploader (Some sample_api)
     "https://demo.dataverse.org" "doi:10.5072/FK2/A" "data"
     nameless_file_metadata quiet_world
  = (Raise TypeError, quiet_world).
Proof.
  apply (@upload_without_filename_raises idle_uploader); reflexivity.
Defined.
